(** * MCP subagent isolation: the keyword dispatchers of solution-examples.py

    A shallow embedding of the two task dispatchers of
    [mcp-subagent-isolation/solution-examples.py]:

    - [route_task], the closure of Solution 1 (query-level isolation);
    - [AgentOrchestrator] of Solution 4, with [analyze_task],
      [execute_task], the four [_execute_*_task] methods and
      [execute_multiple_tasks].

    Python [str] values are modelled by [string]; a character stands for
    the code point of the same number, so the model covers the task
    descriptions whose code points are below 256.  On that range
    [str.lower] is a character-wise map.  The agent SDK
    ([ClaudeSDKClient]) is an external collaborator: it is a parameter of
    the development.  Output on stdout ([print]) is not modelled. *)

From Stdlib Require Import Ascii String NArith Bool List.
From stdpp Require Import base option list strings gmap.

Local Open Scope string_scope.

(** ** Python strings: [str.lower] and the [in] operator *)

Module PyStr.

(** [str.lower] on one code point below 256: the ASCII capitals and the
    Latin-1 capitals U+00C0..U+00DE (U+00D7, the multiplication sign, is
    not a letter) move up by 32; everything else is kept. *)
Definition lower_char (c : ascii) : ascii :=
  let n := N_of_ascii c in
  if ((65 <=? n) && (n <=? 90)
      || (192 <=? n) && (n <=? 222) && negb (n =? 215))%N
  then ascii_of_N (n + 32)
  else c.

Fixpoint lower (s : string) : string :=
  match s with
  | EmptyString => EmptyString
  | String c s' => String (lower_char c) (lower s')
  end.

(** [sub in s]: [sub] occurs in [s] as a contiguous run of characters. *)
Fixpoint str_in (sub s : string) : bool :=
  String.prefix sub s
  || match s with
     | EmptyString => false
     | String _ s' => str_in sub s'
     end.

(** The specification's reading of "the task contains keyword [k],
    case-insensitively, at any position": some run of characters of the
    task lower-cases to [k]. *)
Definition has_keyword (k task : string) : Prop :=
  exists pre u post, task = pre ++ u ++ post /\ lower u = k.

End PyStr.
Export PyStr.

(** ** Configuration values *)

(** A stdio MCP server configuration, the dict literals with keys
    ["command"], ["args"] and the optional ["env"]. *)
Record McpServerConfig := {
  command : string;
  args : list string;
  env : option (gmap string string)
}.

(** [ClaudeAgentOptions], restricted to the keyword arguments the file
    passes; an argument that is not passed is [None]. *)
Record ClaudeAgentOptions := {
  mcp_servers : gmap string McpServerConfig;
  system_prompt : option string;
  allowed_tools : option (list string)
}.

(** Values stored in the dict returned by [analyze_task]. *)
Inductive PyVal :=
| VStr (s : string)
| VList (l : list string).

#[global] Instance McpServerConfig_eq_dec : EqDecision McpServerConfig.
Proof. solve_decision. Defined.
#[global] Instance ClaudeAgentOptions_eq_dec : EqDecision ClaudeAgentOptions.
Proof. solve_decision. Defined.
#[global] Instance PyVal_eq_dec : EqDecision PyVal.
Proof. solve_decision. Defined.

(** ** The agent runtime

    [ClaudeSDKClient] is not part of the repository.  What the file uses
    of it is: the context-manager entry and exit ([async with]), [query]
    and the asynchronous iterator [receive_response].  Each may fail with
    an exception of the SDK; the context manager does not swallow the
    exception of its body.  The runtime is a deterministic transition
    system over an abstract [World]; every call is written to a log. *)

Section Runtime.
Context {Message SdkError World : Type}.

(** The response of one exchange: finitely many messages, then either
    the end of the turn or an exception raised by the iterator. *)
Inductive Stream :=
| StreamEnd
| StreamMsg (msg : Message) (rest : Stream)
| StreamFail (e : SdkError).

Record SDK := {
  sdk_connect : ClaudeAgentOptions -> World -> World * option SdkError;
  sdk_query : string -> World -> World * option SdkError;
  sdk_receive_response : World -> World * Stream;
  sdk_disconnect : World -> World * option SdkError
}.

Inductive PyExn :=
| KeyError (key : string)
| SDKError (e : SdkError).

Inductive Event :=
| EvConnect (options : ClaudeAgentOptions)
| EvQuery (prompt : string)
| EvReceive
| EvDisconnect.

Record State := { world : World; log : list Event }.

Inductive Outcome (A : Type) :=
| Return (a : A)
| Raise (e : PyExn).
Global Arguments Return {A} a.
Global Arguments Raise {A} e.

(** A coroutine run to completion. *)
Definition Async (A : Type) : Type := State -> State * Outcome A.

Definition ret {A} (a : A) : Async A := fun st => (st, Return a).

Definition raise {A} (e : PyExn) : Async A := fun st => (st, Raise e).

Definition bind {A B} (c : Async A) (k : A -> Async B) : Async B :=
  fun st =>
    match c st with
    | (st', Return a) => k a st'
    | (st', Raise e) => (st', Raise e)
    end.

Definition emit (w : World) (ev : Event) (st : State) : State :=
  {| world := w; log := log st ++ [ev] |}.

Definition lift_result (r : option SdkError) : Outcome unit :=
  match r with
  | None => Return tt
  | Some e => Raise (SDKError e)
  end.

Variable sdk : SDK.

(** [ClaudeSDKClient.__aenter__] *)
Definition aenter (options : ClaudeAgentOptions) : Async unit :=
  fun st =>
    let '(w, r) := sdk_connect sdk options (world st) in
    (emit w (EvConnect options) st, lift_result r).

(** [ClaudeSDKClient.__aexit__] *)
Definition aexit : Async unit :=
  fun st =>
    let '(w, r) := sdk_disconnect sdk (world st) in
    (emit w EvDisconnect st, lift_result r).

(** [await client.query(prompt)] *)
Definition client_query (prompt : string) : Async unit :=
  fun st =>
    let '(w, r) := sdk_query sdk prompt (world st) in
    (emit w (EvQuery prompt) st, lift_result r).

(** The loop of a list comprehension over the stream: a message is
    appended to the list under construction; an exception abandons
    the list. *)
Fixpoint collect (s : Stream) (acc : list Message)
  : Outcome (list Message) :=
  match s with
  | StreamEnd => Return acc
  | StreamMsg msg rest => collect rest (acc ++ [msg])
  | StreamFail e => Raise (SDKError e)
  end.

(** [[msg async for msg in client.receive_response()]] *)
Definition receive_all : Async (list Message) :=
  fun st =>
    let '(w, s) := sdk_receive_response sdk (world st) in
    (emit w EvReceive st, collect s []).

(** [async with ClaudeSDKClient(options=options) as client: body].
    When entering fails the body and the exit are skipped; otherwise
    the exit runs on every way out of the body, and an exception of
    the exit replaces the outcome of the body. *)
Definition with_client {A} (options : ClaudeAgentOptions)
    (body : Async A) : Async A :=
  fun st =>
    match aenter options st with
    | (st1, Raise e) => (st1, Raise e)
    | (st1, Return _) =>
        let '(st2, r) := body st1 in
        match aexit st2 with
        | (st3, Raise e) => (st3, Raise e)
        | (st3, Return _) => (st3, r)
        end
    end.

End Runtime.

Arguments Stream : clear implicits.
Arguments SDK : clear implicits.
Arguments PyExn : clear implicits.
Arguments State : clear implicits.
Arguments Outcome : clear implicits.
Arguments Async : clear implicits.

Declare Scope async_scope.
Delimit Scope async_scope with async.
Notation "x <- c ;; k" := (bind c (fun x => k))
  (at level 100, c at next level, right associativity) : async_scope.
Notation "c ;;; k" := (bind c (fun _ => k))
  (at level 100, right associativity) : async_scope.

(** ** Solution 1: [solution1_query_level_isolation] *)

Module Solution1.

Definition filesystem_config : McpServerConfig :=
  {| command := "npx";
     args := ["-y"; "@modelcontextprotocol/server-filesystem"];
     env := Some {[ "ALLOWED_PATHS" := "/home/user/projects" ]} |}.

Definition playwright_config : McpServerConfig :=
  {| command := "npx";
     args := ["-y"; "@modelcontextprotocol/server-playwright"];
     env := None |}.

Definition database_config : McpServerConfig :=
  {| command := "npx";
     args := ["-y"; "@modelcontextprotocol/server-postgres"];
     env := Some {[ "DATABASE_URL" := "postgresql://localhost/mydb" ]} |}.

Section Route.
Context {Message SdkError World : Type}.
Variable sdk : SDK Message SdkError World.
Local Open Scope async_scope.

Definition route_task (task_description : string)
  : Async SdkError World (list Message) :=
  let task_lower := lower task_description in
  if str_in "browser" task_lower || str_in "web scraping" task_lower then
    let options :=
      {| mcp_servers := {[ "playwright" := playwright_config ]};
         system_prompt := Some "You are a browser automation specialist.";
         allowed_tools := None |} in
    with_client sdk options
      (client_query sdk task_description ;;; receive_all sdk)
  else if str_in "file" task_lower || str_in "directory" task_lower then
    let options :=
      {| mcp_servers := {[ "filesystem" := filesystem_config ]};
         system_prompt := Some "You are a file operations specialist.";
         allowed_tools := None |} in
    with_client sdk options
      (client_query sdk task_description ;;; receive_all sdk)
  else if str_in "database" task_lower || str_in "sql" task_lower then
    let options :=
      {| mcp_servers := {[ "database" := database_config ]};
         system_prompt := Some "You are a database specialist.";
         allowed_tools := None |} in
    with_client sdk options
      (client_query sdk task_description ;;; receive_all sdk)
  else
    let options :=
      {| mcp_servers := ∅;
         system_prompt := None;
         allowed_tools := Some ["Read"; "Write"; "Bash"] |} in
    with_client sdk options
      (client_query sdk task_description ;;; receive_all sdk).

End Route.

(** The [options] value built in each branch of [route_task], by the
    branch's order in the source. *)
Definition browser_options : ClaudeAgentOptions :=
  {| mcp_servers := {[ "playwright" := playwright_config ]};
     system_prompt := Some "You are a browser automation specialist.";
     allowed_tools := None |}.

Definition filesystem_options : ClaudeAgentOptions :=
  {| mcp_servers := {[ "filesystem" := filesystem_config ]};
     system_prompt := Some "You are a file operations specialist.";
     allowed_tools := None |}.

Definition database_options : ClaudeAgentOptions :=
  {| mcp_servers := {[ "database" := database_config ]};
     system_prompt := Some "You are a database specialist.";
     allowed_tools := None |}.

Definition general_options : ClaudeAgentOptions :=
  {| mcp_servers := ∅;
     system_prompt := None;
     allowed_tools := Some ["Read"; "Write"; "Bash"] |}.

End Solution1.

(** ** Solution 4: [AgentOrchestrator] *)

Module AgentOrchestrator.

Definition browser_config : McpServerConfig :=
  {| command := "npx";
     args := ["-y"; "@modelcontextprotocol/server-playwright"];
     env := None |}.

Definition filesystem_config : McpServerConfig :=
  {| command := "npx";
     args := ["-y"; "@modelcontextprotocol/server-filesystem"];
     env := Some {[ "ALLOWED_PATHS" := "/home/user/projects" ]} |}.

Definition database_config : McpServerConfig :=
  {| command := "npx";
     args := ["-y"; "@modelcontextprotocol/server-postgres"];
     env := Some {[ "DATABASE_URL" := "postgresql://localhost/mydb" ]} |}.

Definition analyze_task (task_description : string) : gmap string PyVal :=
  let lower := lower task_description in
  if str_in "browser" lower || str_in "web" lower then
    {[ "category" := VStr "browser"; "complexity" := VStr "complex";
       "tools" := VList ["playwright"] ]}
  else if str_in "file" lower || str_in "directory" lower then
    {[ "category" := VStr "filesystem"; "complexity" := VStr "simple";
       "tools" := VList ["filesystem"] ]}
  else if str_in "database" lower || str_in "sql" lower then
    {[ "category" := VStr "database"; "complexity" := VStr "complex";
       "tools" := VList ["database"] ]}
  else
    {[ "category" := VStr "general"; "complexity" := VStr "simple";
       "tools" := VList [] ]}.

Section Execute.
Context {Message SdkError World : Type}.
Variable sdk : SDK Message SdkError World.
Local Open Scope async_scope.

Local Abbreviation Task := (Async SdkError World (list Message)).

(** [d[key]]: a missing key raises [KeyError]. *)
Definition getitem (d : gmap string PyVal) (key : string)
  : Async SdkError World PyVal :=
  match d !! key with
  | Some v => ret v
  | None => raise (KeyError key)
  end.

Definition _execute_browser_task (prompt : string) : Task :=
  let options :=
    {| mcp_servers := {[ "playwright" := browser_config ]};
       system_prompt := Some "You are a browser automation expert.";
       allowed_tools := None |} in
  with_client sdk options (client_query sdk prompt ;;; receive_all sdk).

Definition _execute_filesystem_task (prompt : string) : Task :=
  let options :=
    {| mcp_servers := {[ "filesystem" := filesystem_config ]};
       system_prompt := Some "You are a file operations expert.";
       allowed_tools := None |} in
  with_client sdk options (client_query sdk prompt ;;; receive_all sdk).

Definition _execute_database_task (prompt : string) : Task :=
  let options :=
    {| mcp_servers := {[ "database" := database_config ]};
       system_prompt := Some "You are a database expert.";
       allowed_tools := None |} in
  with_client sdk options (client_query sdk prompt ;;; receive_all sdk).

Definition _execute_general_task (prompt : string) : Task :=
  let options :=
    {| mcp_servers := ∅;
       system_prompt := Some "You are a helpful assistant.";
       allowed_tools := Some ["Read"; "Write"; "Bash"; "Grep"; "Glob"] |} in
  with_client sdk options (client_query sdk prompt ;;; receive_all sdk).

(** The two [print] calls between the analysis and the dispatch are left
    out; the keys they read are the ones [analyze_task] always sets. *)
Definition execute_task (task_description : string) : Task :=
  let task_type := analyze_task task_description in
  category <- getitem task_type "category" ;;
  if decide (category = VStr "browser") then
    _execute_browser_task task_description
  else if decide (category = VStr "filesystem") then
    _execute_filesystem_task task_description
  else if decide (category = VStr "database") then
    _execute_database_task task_description
  else
    _execute_general_task task_description.

(** The [for] loop of [execute_multiple_tasks], with the list
    [results] it appends to. *)
Fixpoint for_each_task (tasks : list string)
    (results : list (list Message))
  : Async SdkError World (list (list Message)) :=
  match tasks with
  | [] => ret results
  | task :: tasks' =>
      result <- execute_task task ;;
      for_each_task tasks' (results ++ [result])
  end.

Definition execute_multiple_tasks (tasks : list string)
  : Async SdkError World (list (list Message)) :=
  for_each_task tasks [].

End Execute.

(** The [options] value built by each [_execute_*_task] method. *)
Definition browser_options : ClaudeAgentOptions :=
  {| mcp_servers := {[ "playwright" := browser_config ]};
     system_prompt := Some "You are a browser automation expert.";
     allowed_tools := None |}.

Definition filesystem_options : ClaudeAgentOptions :=
  {| mcp_servers := {[ "filesystem" := filesystem_config ]};
     system_prompt := Some "You are a file operations expert.";
     allowed_tools := None |}.

Definition database_options : ClaudeAgentOptions :=
  {| mcp_servers := {[ "database" := database_config ]};
     system_prompt := Some "You are a database expert.";
     allowed_tools := None |}.

Definition general_options : ClaudeAgentOptions :=
  {| mcp_servers := ∅;
     system_prompt := Some "You are a helpful assistant.";
     allowed_tools := Some ["Read"; "Write"; "Bash"; "Grep"; "Glob"] |}.

(** The server configuration the orchestrator holds for a server name. *)
Definition config_of (name : string) : option McpServerConfig :=
  if decide (name = "playwright") then Some browser_config
  else if decide (name = "filesystem") then Some filesystem_config
  else if decide (name = "database") then Some database_config
  else None.

(** The server table made of the configurations held for [tools]. *)
Fixpoint servers_of (tools : list string) : gmap string McpServerConfig :=
  match tools with
  | [] => ∅
  | name :: tools' =>
      match config_of name with
      | Some config => <[ name := config ]> (servers_of tools')
      | None => servers_of tools'
      end
  end.

End AgentOrchestrator.

(** ** Observations on a run *)

(** The configurations of the sessions opened, in the order of opening. *)
Fixpoint sessions_opened (l : list Event) : list ClaudeAgentOptions :=
  match l with
  | [] => []
  | EvConnect options :: l' => options :: sessions_opened l'
  | _ :: l' => sessions_opened l'
  end.

(** The prompts sent, in the order of sending. *)
Fixpoint prompts_sent (l : list Event) : list string :=
  match l with
  | [] => []
  | EvQuery prompt :: l' => prompt :: prompts_sent l'
  | _ :: l' => prompts_sent l'
  end.

Section Observations.
Context {Message SdkError World : Type}.
Variable sdk : SDK Message SdkError World.
Local Open Scope async_scope.

(** One exchange: the block every branch of the dispatchers runs. *)
Definition session (options : ClaudeAgentOptions) (prompt : string)
  : Async SdkError World (list Message) :=
  with_client sdk options (client_query sdk prompt ;;; receive_all sdk).

(** Running [c] opens exactly one session, configured with [options],
    whatever the runtime answers. *)
Definition opens {A} (c : Async SdkError World A)
    (options : ClaudeAgentOptions) : Prop :=
  forall st,
    sessions_opened (log (c st).1)
    = (sessions_opened (log st) ++ [options])%list.

(** The tasks of a batch all succeed when run one after the other from
    [st]: each starts in the state the previous one left. *)
Inductive all_succeed
  : list string -> State World -> list (list Message) -> State World -> Prop :=
| all_succeed_nil st : all_succeed [] st [] st
| all_succeed_cons task tasks st st1 st2 result results :
    AgentOrchestrator.execute_task sdk task st = (st1, Return result) ->
    all_succeed tasks st1 results st2 ->
    all_succeed (task :: tasks) st (result :: results) st2.

End Observations.

(** The messages of a stream, followed by how it ends. *)
Fixpoint stream_of {Message SdkError : Type} (msgs : list Message)
    (ending : Stream Message SdkError) : Stream Message SdkError :=
  match msgs with
  | [] => ending
  | msg :: msgs' => StreamMsg msg (stream_of msgs' ending)
  end.

(** ** Keywords of the categories *)

Definition browser_keyword (task : string) : Prop :=
  has_keyword "browser" task \/ has_keyword "web scraping" task.

(** [analyze_task] tests for ["web"] where [route_task] tests for
    ["web scraping"]. *)
Definition browser_keyword4 (task : string) : Prop :=
  has_keyword "browser" task \/ has_keyword "web" task.

Definition filesystem_keyword (task : string) : Prop :=
  has_keyword "file" task \/ has_keyword "directory" task.

Definition database_keyword (task : string) : Prop :=
  has_keyword "database" task \/ has_keyword "sql" task.

(** ** A scripted runtime

    A runtime for running the dispatchers on concrete inputs.  Its world
    is the list of the streams still to be served; connecting, sending
    and disconnecting succeed, and each exchange is answered by the next
    stream of the script (by an empty response when the script is
    used up). *)

Module Scripted.

Definition sdk : SDK string string (list (Stream string string)) :=
  {| sdk_connect := fun _ w => (w, None);
     sdk_query := fun _ w => (w, None);
     sdk_receive_response := fun w =>
       match w with
       | [] => ([], StreamEnd)
       | s :: w' => (w', s)
       end;
     sdk_disconnect := fun w => (w, None) |}.

Definition start (script : list (Stream string string))
  : State (list (Stream string string)) :=
  {| world := script; log := [] |}.

(** A stream that breaks after two messages. *)
Definition broken : Stream string string :=
  stream_of ["thinking"; "partial answer"] (StreamFail "connection reset").

Definition answer (text : string) : Stream string string :=
  stream_of [text] StreamEnd.

End Scripted.

(** ** The other entry points of the file *)

Definition newline : string := String "010"%char EmptyString.

(** The characters of a string, each as a string of length one: what
    iterating over a [str] yields. *)
Fixpoint characters (s : string) : list string :=
  match s with
  | EmptyString => []
  | String c s' => String c EmptyString :: characters s'
  end.

(** [', '.join(v)]: over the items of a list, or over the characters of
    a string. *)
Definition join_tools (v : PyVal) : string :=
  match v with
  | VList l => String.concat ", " l
  | VStr s => String.concat ", " (characters s)
  end.

Section EntryPoints.
Context {Message SdkError World : Type}.
Variable sdk : SDK Message SdkError World.
Local Open Scope async_scope.

(** The text of the second [print] of [execute_task]:
    [f"Required Tools: {', '.join(task_type['tools']) or 'none'}\n"].
    An empty string is false for [or]. *)
Definition required_tools_line (task_type : gmap string PyVal)
  : Outcome SdkError string :=
  match task_type !! "tools" with
  | None => Raise (KeyError "tools")
  | Some tools =>
      let joined := join_tools tools in
      Return ("Required Tools: "
              ++ (if String.eqb joined "" then "none" else joined)
              ++ newline)
  end.

(** The body of [async for message in ...: pass]. *)
Fixpoint skip_all (s : Stream Message SdkError) : Outcome SdkError unit :=
  match s with
  | StreamEnd => Return tt
  | StreamMsg _ rest => skip_all rest
  | StreamFail e => Raise (SDKError e)
  end.

(** [async for message in client.receive_response(): pass] *)
Definition receive_and_ignore : Async SdkError World unit :=
  fun st =>
    let '(w, s) := sdk_receive_response sdk (world st) in
    (emit w EvReceive st, skip_all s).

(** The loop [for task in tasks: await route_task(task)]. *)
Fixpoint route_each (tasks : list string) : Async SdkError World unit :=
  match tasks with
  | [] => ret tt
  | task :: tasks' =>
      Solution1.route_task sdk task ;;; route_each tasks'
  end.

Definition solution1_query_level_isolation : Async SdkError World unit :=
  let tasks :=
    ["Scrape product data from example.com";
     "List all Python files in src/";
     "Query users table for active accounts";
     "Explain what MCP servers are"] in
  route_each tasks.

Definition solution2_tool_allowlisting : Async SdkError World unit :=
  let options :=
    {| mcp_servers :=
         {[ "playwright" :=
              {| command := "npx";
                 args := ["-y"; "@modelcontextprotocol/server-playwright"];
                 env := None |};
            "filesystem" :=
              {| command := "npx";
                 args := ["-y"; "@modelcontextprotocol/server-filesystem"];
                 env :=
                   Some {[ "ALLOWED_PATHS" := "/home/user/projects" ]} |} ]};
       allowed_tools :=
         Some ["Read"; "Write"; "Grep"; "Glob";
               "mcp__filesystem__list_directory";
               "mcp__filesystem__read_file"];
       system_prompt := Some "You are a code analysis expert." |} in
  with_client sdk options
    (client_query sdk "Analyze the codebase and write a report" ;;;
     receive_and_ignore).

Definition solution4_external_orchestrator : Async SdkError World unit :=
  let tasks :=
    ["Scrape pricing data from competitors' websites";
     "List all markdown files in docs/";
     "Query database for user activity in last 30 days";
     "Explain the difference between async and sync functions"] in
  AgentOrchestrator.execute_multiple_tasks sdk tasks ;;; ret tt.

(** The session of [compare_approaches]; only [query] is called in it. *)
Definition compare_approaches : Async SdkError World unit :=
  let options :=
    {| mcp_servers :=
         {[ "filesystem" :=
              {| command := "npx";
                 args := ["-y"; "@modelcontextprotocol/server-filesystem"];
                 env := None |} ]};
       system_prompt := Some "Process files only";
       allowed_tools := None |} in
  with_client sdk options (client_query sdk "Process files").

End EntryPoints.

(** ** Solution 3: the handlers of the in-process tools

    The arguments arrive as a dict; the tool schemas declare every
    argument a [str], and formatting a [str] in an f-string gives the
    string itself.  The handlers await nothing. *)

Module Solution3.

Section Tools.
Context {SdkError : Type}.

(** [args[key]] *)
Definition getarg (args : gmap string string) (key : string)
  : Outcome SdkError string :=
  match args !! key with
  | Some v => Return v
  | None => Raise (KeyError key)
  end.

Definition analyze_code (args : gmap string string)
  : Outcome SdkError (gmap string (list (gmap string string))) :=
  match getarg args "file_path" with
  | Raise e => Raise e
  | Return file_path =>
      match getarg args "check_type" with
      | Raise e => Raise e
      | Return check_type =>
          Return
            {[ "content" :=
                 [ {[ "type" := "text";
                      "text" :=
                        "Analyzed " ++ file_path ++ " for " ++ check_type
                        ++ " issues: Found 0 critical issues." ]} ] ]}
      end
  end.

Definition generate_docs (args : gmap string string)
  : Outcome SdkError (gmap string (list (gmap string string))) :=
  match getarg args "file_path" with
  | Raise e => Raise e
  | Return file_path =>
      match getarg args "format" with
      | Raise e => Raise e
      | Return doc_format =>
          Return
            {[ "content" :=
                 [ {[ "type" := "text";
                      "text" :=
                        "Generated " ++ doc_format
                        ++ " documentation for " ++ file_path ]} ] ]}
      end
  end.

End Tools.

End Solution3.

(** ** Runtimes that fail *)

Module Failing.

(** The runtime cannot be reached: connecting fails. *)
Definition offline : SDK string string (list (Stream string string)) :=
  {| sdk_connect := fun _ w => (w, Some "unreachable");
     sdk_query := sdk_query Scripted.sdk;
     sdk_receive_response := sdk_receive_response Scripted.sdk;
     sdk_disconnect := sdk_disconnect Scripted.sdk |}.



End Failing.

(** ** A runtime that remembers its configuration

    Its world holds the options of the sessions opened so far, besides
    the streams still to be served. *)

Module Recording.

Definition sdk
  : SDK string string
      (list ClaudeAgentOptions * list (Stream string string)) :=
  {| sdk_connect := fun options w => ((options :: w.1, w.2), None);
     sdk_query := fun _ w => (w, None);
     sdk_receive_response := fun w =>
       match w.2 with
       | [] => (w, StreamEnd)
       | s :: rest => ((w.1, rest), s)
       end;
     sdk_disconnect := fun w => (w, None) |}.

Definition start (script : list (Stream string string))
  : State (list ClaudeAgentOptions * list (Stream string string)) :=
  {| world := ([], script); log := [] |}.

End Recording.

(** * Properties *)

(** ** Strings *)

Section StringFacts.

Lemma lower_app (a b : string) : lower (a ++ b) = lower a ++ lower b.
Proof.
  induction a as [|c a IH]; simpl; [reflexivity | now rewrite IH].
Qed.

(** A decomposition of [lower s] comes from one of [s]. *)
Lemma lower_split (a r s : string) :
  lower s = a ++ r ->
  exists s1 s2, s = s1 ++ s2 /\ lower s1 = a /\ lower s2 = r.
Proof.
  revert s; induction a as [|c a IH]; intros s H.
  - exists "", s. auto.
  - destruct s as [|d s]; simpl in H; [discriminate|].
    injection H as Hc Hs.
    destruct (IH _ Hs) as (s1 & s2 & -> & <- & <-).
    exists (String d s1), s2. simpl. now rewrite Hc.
Qed.

Lemma prefix_spec (k s : string) :
  String.prefix k s = true <-> exists post, s = k ++ post.
Proof.
  revert s; induction k as [|c k IH]; intros s.
  - split; [intros _; now exists s | intros _; now destruct s].
  - destruct s as [|d s]; simpl.
    + split; [discriminate | intros [post H]; discriminate].
    + destruct (ascii_dec c d) as [->|Hne].
      * rewrite IH. split; intros [post H]; exists post.
        -- now rewrite H.
        -- now injection H.
      * split; [discriminate|].
        intros [post H]. injection H as H1 _. congruence.
Qed.

Lemma str_in_spec (k s : string) :
  str_in k s = true <-> exists pre post, s = pre ++ k ++ post.
Proof.
  induction s as [|d s IH].
  - cbn [str_in]. rewrite orb_false_r, prefix_spec. split.
    + intros [post H]. now exists "", post.
    + intros (pre & post & H). destruct pre; [now exists post | discriminate].
  - cbn [str_in]. rewrite orb_true_iff, prefix_spec, IH. split.
    + intros [[post H] | (pre & post & H)].
      * now exists "", post.
      * exists (String d pre), post. simpl. now rewrite H.
    + intros (pre & post & H). destruct pre as [|c pre].
      * left. now exists post.
      * right. injection H as _ H. now exists pre, post.
Qed.

(** The code's test, [k in task.lower()], is the specification's
    case-insensitive containment. *)
Lemma has_keyword_iff (k task : string) :
  has_keyword k task <-> str_in k (lower task) = true.
Proof.
  rewrite str_in_spec. split.
  - intros (pre & u & post & -> & <-).
    exists (lower pre), (lower post). now rewrite !lower_app.
  - intros (a & b & H).
    destruct (lower_split _ _ _ H) as (pre & rest & -> & _ & Hrest).
    destruct (lower_split _ _ _ Hrest) as (u & post & -> & Hu & _).
    now exists pre, u, post.
Qed.

Lemma has_keyword_false (k task : string) :
  ~ has_keyword k task <-> str_in k (lower task) = false.
Proof. rewrite has_keyword_iff. now destruct (str_in k (lower task)). Qed.

End StringFacts.

(** ** One exchange with the runtime *)

Section SessionFacts.
Context {Message SdkError World : Type}.
Variable sdk : SDK Message SdkError World.

Lemma sessions_opened_app (l1 l2 : list Event) :
  sessions_opened (l1 ++ l2) = (sessions_opened l1 ++ sessions_opened l2)%list.
Proof.
  induction l1 as [|[o|p| |] l1 IH]; simpl;
    [reflexivity | now rewrite IH | auto ..].
Qed.

Lemma prompts_sent_app (l1 l2 : list Event) :
  prompts_sent (l1 ++ l2) = (prompts_sent l1 ++ prompts_sent l2)%list.
Proof.
  induction l1 as [|[o|p| |] l1 IH]; simpl;
    [reflexivity | auto | now rewrite IH | auto ..].
Qed.

Lemma collect_stream_of (msgs : list Message)
    (ending : Stream Message SdkError) (acc : list Message) :
  collect (stream_of msgs ending) acc = collect ending (acc ++ msgs).
Proof.
  revert acc; induction msgs as [|m msgs IH]; intros acc; simpl.
  - now rewrite app_nil_r.
  - now rewrite IH, <- app_assoc.
Qed.

Ltac run_session :=
  unfold session, with_client, aenter, bind, client_query, receive_all,
    aexit, emit, lift_result; simpl.

(** Whatever the runtime answers, an exchange logs the opening of its
    session first and opens no other session. *)
Lemma session_log (options : ClaudeAgentOptions) (prompt : string)
    (st : State World) :
  exists tail,
    log (session sdk options prompt st).1
    = (log st ++ EvConnect options :: tail)%list
    /\ sessions_opened tail = [].
Proof.
  run_session.
  destruct (sdk_connect sdk options (world st)) as [w1 [e1|]]; simpl.
  { now exists []. }
  destruct (sdk_query sdk prompt w1) as [w2 [e2|]]; simpl.
  - destruct (sdk_disconnect sdk w2) as [w3 [e3|]]; simpl;
      exists [EvQuery prompt; EvDisconnect];
      now rewrite <- !app_assoc.
  - destruct (sdk_receive_response sdk w2) as [w3 s]; simpl.
    destruct (sdk_disconnect sdk w3) as [w4 [e4|]]; simpl;
      exists [EvQuery prompt; EvReceive; EvDisconnect];
      now rewrite <- !app_assoc.
Qed.

Lemma session_opens (options : ClaudeAgentOptions) (prompt : string) :
  opens (session sdk options prompt) options.
Proof.
  intros st. destruct (session_log options prompt st) as (tail & -> & Htail).
  rewrite sessions_opened_app. simpl. now rewrite Htail.
Qed.

(** An exchange that returns has gone through all four calls. *)
Lemma session_return (options : ClaudeAgentOptions) (prompt : string)
    (st st' : State World) (result : list Message) :
  session sdk options prompt st = (st', Return result) ->
  log st'
  = (log st
     ++ [EvConnect options; EvQuery prompt; EvReceive; EvDisconnect])%list.
Proof.
  run_session.
  destruct (sdk_connect sdk options (world st)) as [w1 [e1|]]; simpl;
    [discriminate|].
  destruct (sdk_query sdk prompt w1) as [w2 [e2|]]; simpl.
  - destruct (sdk_disconnect sdk w2) as [w3 [e3|]]; simpl; discriminate.
  - destruct (sdk_receive_response sdk w2) as [w3 s]; simpl.
    destruct (sdk_disconnect sdk w3) as [w4 [e4|]]; simpl;
      [discriminate|].
    intros H. injection H as <- _. simpl. now rewrite <- !app_assoc.
Qed.

(** An exchange whose response stream breaks after [msgs]. *)
Lemma session_stream_failure (options : ClaudeAgentOptions)
    (prompt : string) (st : State World) (w1 w2 w3 : World)
    (msgs : list Message) (e : SdkError) :
  sdk_connect sdk options (world st) = (w1, None) ->
  sdk_query sdk prompt w1 = (w2, None) ->
  sdk_receive_response sdk w2 = (w3, stream_of msgs (StreamFail e)) ->
  exists st' e',
    session sdk options prompt st = (st', Raise e')
    /\ log st'
       = (log st
          ++ [EvConnect options; EvQuery prompt; EvReceive; EvDisconnect])%list
    /\ ((sdk_disconnect sdk w3).2 = None -> e' = SDKError e).
Proof.
  intros Hc Hq Hr. run_session. rewrite Hc. simpl. rewrite Hq. simpl.
  rewrite Hr. simpl. rewrite collect_stream_of. simpl.
  destruct (sdk_disconnect sdk w3) as [w4 [e4|]]; simpl;
    eexists _, _; (split; [reflexivity|]); simpl;
    rewrite <- !app_assoc; (split; [reflexivity|]); intros H;
    [discriminate | reflexivity].
Qed.

End SessionFacts.

(** ** The keyword tests *)

Section KeywordFacts.

Lemma either_keyword (k1 k2 task : string) :
  has_keyword k1 task \/ has_keyword k2 task
  <-> str_in k1 (lower task) || str_in k2 (lower task) = true.
Proof. now rewrite orb_true_iff, !has_keyword_iff. Qed.

Lemma neither_keyword (k1 k2 task : string) :
  ~ (has_keyword k1 task \/ has_keyword k2 task)
  <-> str_in k1 (lower task) || str_in k2 (lower task) = false.
Proof.
  rewrite either_keyword.
  now destruct (str_in k1 (lower task) || str_in k2 (lower task)).
Qed.

End KeywordFacts.

(** ** The branch each dispatcher takes *)

Section DispatchFacts.
Context {Message SdkError World : Type}.
Variable sdk : SDK Message SdkError World.

Lemma route_browser (task : string) :
  browser_keyword task ->
  Solution1.route_task sdk task = session sdk Solution1.browser_options task.
Proof.
  intros H%either_keyword. unfold Solution1.route_task. now rewrite H.
Qed.

Lemma route_filesystem (task : string) :
  ~ browser_keyword task -> filesystem_keyword task ->
  Solution1.route_task sdk task = session sdk Solution1.filesystem_options task.
Proof.
  intros Hb%neither_keyword Hf%either_keyword.
  unfold Solution1.route_task. now rewrite Hb, Hf.
Qed.

Lemma route_database (task : string) :
  ~ browser_keyword task -> ~ filesystem_keyword task ->
  database_keyword task ->
  Solution1.route_task sdk task = session sdk Solution1.database_options task.
Proof.
  intros Hb%neither_keyword Hf%neither_keyword Hd%either_keyword.
  unfold Solution1.route_task. now rewrite Hb, Hf, Hd.
Qed.

Lemma route_general (task : string) :
  ~ browser_keyword task -> ~ filesystem_keyword task ->
  ~ database_keyword task ->
  Solution1.route_task sdk task = session sdk Solution1.general_options task.
Proof.
  intros Hb%neither_keyword Hf%neither_keyword Hd%neither_keyword.
  unfold Solution1.route_task. now rewrite Hb, Hf, Hd.
Qed.

Lemma analyze_browser (task : string) :
  browser_keyword4 task ->
  AgentOrchestrator.analyze_task task
  = {[ "category" := VStr "browser"; "complexity" := VStr "complex";
       "tools" := VList ["playwright"] ]}.
Proof.
  intros H%either_keyword. unfold AgentOrchestrator.analyze_task.
  now rewrite H.
Qed.

Lemma analyze_filesystem (task : string) :
  ~ browser_keyword4 task -> filesystem_keyword task ->
  AgentOrchestrator.analyze_task task
  = {[ "category" := VStr "filesystem"; "complexity" := VStr "simple";
       "tools" := VList ["filesystem"] ]}.
Proof.
  intros Hb%neither_keyword Hf%either_keyword.
  unfold AgentOrchestrator.analyze_task. now rewrite Hb, Hf.
Qed.

Lemma analyze_database (task : string) :
  ~ browser_keyword4 task -> ~ filesystem_keyword task ->
  database_keyword task ->
  AgentOrchestrator.analyze_task task
  = {[ "category" := VStr "database"; "complexity" := VStr "complex";
       "tools" := VList ["database"] ]}.
Proof.
  intros Hb%neither_keyword Hf%neither_keyword Hd%either_keyword.
  unfold AgentOrchestrator.analyze_task. now rewrite Hb, Hf, Hd.
Qed.

Lemma analyze_general (task : string) :
  ~ browser_keyword4 task -> ~ filesystem_keyword task ->
  ~ database_keyword task ->
  AgentOrchestrator.analyze_task task
  = {[ "category" := VStr "general"; "complexity" := VStr "simple";
       "tools" := VList [] ]}.
Proof.
  intros Hb%neither_keyword Hf%neither_keyword Hd%neither_keyword.
  unfold AgentOrchestrator.analyze_task. now rewrite Hb, Hf, Hd.
Qed.

(** [execute_task] runs the method of the category found. *)
Lemma execute_browser (task : string) :
  browser_keyword4 task ->
  AgentOrchestrator.execute_task sdk task
  = session sdk AgentOrchestrator.browser_options task.
Proof.
  intros H. unfold AgentOrchestrator.execute_task.
  rewrite (analyze_browser _ H). reflexivity.
Qed.

Lemma execute_filesystem (task : string) :
  ~ browser_keyword4 task -> filesystem_keyword task ->
  AgentOrchestrator.execute_task sdk task
  = session sdk AgentOrchestrator.filesystem_options task.
Proof.
  intros Hb Hf. unfold AgentOrchestrator.execute_task.
  rewrite (analyze_filesystem _ Hb Hf). reflexivity.
Qed.

Lemma execute_database (task : string) :
  ~ browser_keyword4 task -> ~ filesystem_keyword task ->
  database_keyword task ->
  AgentOrchestrator.execute_task sdk task
  = session sdk AgentOrchestrator.database_options task.
Proof.
  intros Hb Hf Hd. unfold AgentOrchestrator.execute_task.
  rewrite (analyze_database _ Hb Hf Hd). reflexivity.
Qed.

Lemma execute_general (task : string) :
  ~ browser_keyword4 task -> ~ filesystem_keyword task ->
  ~ database_keyword task ->
  AgentOrchestrator.execute_task sdk task
  = session sdk AgentOrchestrator.general_options task.
Proof.
  intros Hb Hf Hd. unfold AgentOrchestrator.execute_task.
  rewrite (analyze_general _ Hb Hf Hd). reflexivity.
Qed.

End DispatchFacts.

(** ** Case analysis on a task *)

Section Cases.

Lemma keyword_dec (k1 k2 task : string) :
  (has_keyword k1 task \/ has_keyword k2 task)
  \/ ~ (has_keyword k1 task \/ has_keyword k2 task).
Proof.
  rewrite neither_keyword, either_keyword.
  destruct (str_in k1 (lower task) || str_in k2 (lower task)); auto.
Qed.

(** The four ways [analyze_task] can go. *)
Lemma analyze_cases (task : string) :
  browser_keyword4 task
  \/ (~ browser_keyword4 task /\ filesystem_keyword task)
  \/ (~ browser_keyword4 task /\ ~ filesystem_keyword task
      /\ database_keyword task)
  \/ (~ browser_keyword4 task /\ ~ filesystem_keyword task
      /\ ~ database_keyword task).
Proof.
  unfold browser_keyword4, filesystem_keyword, database_keyword.
  destruct (keyword_dec "browser" "web" task);
    destruct (keyword_dec "file" "directory" task);
    destruct (keyword_dec "database" "sql" task); tauto.
Qed.

(** The four ways [route_task] can go. *)
Lemma route_cases (task : string) :
  browser_keyword task
  \/ (~ browser_keyword task /\ filesystem_keyword task)
  \/ (~ browser_keyword task /\ ~ filesystem_keyword task
      /\ database_keyword task)
  \/ (~ browser_keyword task /\ ~ filesystem_keyword task
      /\ ~ database_keyword task).
Proof.
  unfold browser_keyword, filesystem_keyword, database_keyword.
  destruct (keyword_dec "browser" "web scraping" task);
    destruct (keyword_dec "file" "directory" task);
    destruct (keyword_dec "database" "sql" task); tauto.
Qed.

Lemma string_app_assoc (a b c : string) : (a ++ b) ++ c = a ++ b ++ c.
Proof.
  induction a as [|x a IH]; [reflexivity|].
  change (String x ((a ++ b) ++ c) = String x (a ++ b ++ c)).
  now rewrite IH.
Qed.

(** A task that contains a keyword contains every beginning of it. *)
Lemma has_keyword_beginning (k k' task : string) :
  has_keyword (k ++ k') task -> has_keyword k task.
Proof.
  rewrite !has_keyword_iff, !str_in_spec.
  intros (pre & post & ->). exists pre, (k' ++ post).
  now rewrite string_app_assoc.
Qed.

End Cases.

(** ** The example tasks of the source *)

(** The four tasks [solution4_external_orchestrator] submits reach the
    four categories. *)
Example solution4_tasks :
  (fun task => AgentOrchestrator.analyze_task task !! "category") <$>
    ["Scrape pricing data from competitors' websites";
     "List all markdown files in docs/";
     "Query database for user activity in last 30 days";
     "Explain the difference between async and sync functions"]
  = [Some (VStr "browser"); Some (VStr "filesystem");
     Some (VStr "database"); Some (VStr "general")].
Proof. reflexivity. Qed.

(** Of the four tasks [solution1_query_level_isolation] submits, only
    the second contains a keyword ("file"); the others run in the
    default branch. *)
Example solution1_tasks :
  (fun task =>
     sessions_opened
       (log (Solution1.route_task Scripted.sdk task (Scripted.start [])).1)) <$>
    ["Scrape product data from example.com";
     "List all Python files in src/";
     "Query users table for active accounts";
     "Explain what MCP servers are"]
  = [[Solution1.general_options]; [Solution1.filesystem_options];
     [Solution1.general_options]; [Solution1.general_options]].
Proof. reflexivity. Qed.

(** Matching ignores letter case and word boundaries. *)
Example matching_inside_a_word :
  str_in "database" (lower "A NonDatabase task") = true
  /\ AgentOrchestrator.analyze_task "A NonDatabase task" !! "category"
     = Some (VStr "database").
Proof. split; reflexivity. Qed.

(** * The claims *)

(** ** The dictionary returned by [analyze_task] *)

Lemma shape_dom (category complexity tools : PyVal) :
  dom ({[ "category" := category; "complexity" := complexity;
          "tools" := tools ]} : gmap string PyVal)
  = ({[ "category"; "complexity"; "tools" ]} : gset string).
Proof. rewrite !dom_insert_L, dom_singleton_L. set_solver. Qed.

(** C10. For every input, [analyze_task] returns a dict whose keys are
    exactly "category", "complexity" and "tools".  The category is one
    of the four names; the tools list is the one of the category
    ("browser": playwright, "filesystem": filesystem, "database":
    database, "general": none); the complexity is "complex" when the
    category is "browser" or "database" and "simple" otherwise. *)
Theorem analyze_task_shape (task : string) :
  exists category : string,
    category ∈ ["browser"; "filesystem"; "database"; "general"]
    /\ dom (AgentOrchestrator.analyze_task task)
       = ({[ "category"; "complexity"; "tools" ]} : gset string)
    /\ AgentOrchestrator.analyze_task task !! "category"
       = Some (VStr category)
    /\ AgentOrchestrator.analyze_task task !! "tools"
       = Some (VList
           (if decide (category = "browser") then ["playwright"]
            else if decide (category = "filesystem") then ["filesystem"]
            else if decide (category = "database") then ["database"]
            else []))
    /\ AgentOrchestrator.analyze_task task !! "complexity"
       = Some (VStr
           (if decide (category = "browser" \/ category = "database")
            then "complex" else "simple")).
Proof.
  destruct (analyze_cases task)
    as [H | [[Hb H] | [(Hb & Hf & H) | (Hb & Hf & H)]]].
  - exists "browser". rewrite (analyze_browser _ H).
    split; [set_solver|]. split; [apply shape_dom|]. now vm_compute.
  - exists "filesystem". rewrite (analyze_filesystem _ Hb H).
    split; [set_solver|]. split; [apply shape_dom|]. now vm_compute.
  - exists "database". rewrite (analyze_database _ Hb Hf H).
    split; [set_solver|]. split; [apply shape_dom|]. now vm_compute.
  - exists "general". rewrite (analyze_general _ Hb Hf H).
    split; [set_solver|]. split; [apply shape_dom|]. now vm_compute.
Qed.

(** ** The configuration of the session *)

(** C3. Whatever the task, [execute_task] opens exactly one session.
    Its options are those of the method of the category that
    [analyze_task] found: the server table holds the orchestrator's own
    configurations of the tools listed for that category and no other
    server, and an allow-list is passed for "general" only.  For
    "Explain what MCP servers are" both dispatchers open a session
    without any server, restricted to a fixed list of local tools. *)
Theorem session_is_configured_by_profile
    (Message SdkError World : Type) (sdk : SDK Message SdkError World)
    (task : string) :
  (exists (category : string) (tools : list string)
      (options : ClaudeAgentOptions),
      AgentOrchestrator.analyze_task task !! "category" = Some (VStr category)
      /\ AgentOrchestrator.analyze_task task !! "tools" = Some (VList tools)
      /\ opens (AgentOrchestrator.execute_task sdk task) options
      /\ options
         = (if decide (category = "browser")
            then AgentOrchestrator.browser_options
            else if decide (category = "filesystem")
            then AgentOrchestrator.filesystem_options
            else if decide (category = "database")
            then AgentOrchestrator.database_options
            else AgentOrchestrator.general_options)
      /\ mcp_servers options = AgentOrchestrator.servers_of tools
      /\ allowed_tools options
         = (if decide (category = "general")
            then Some ["Read"; "Write"; "Bash"; "Grep"; "Glob"]
            else None))
  /\ opens (AgentOrchestrator.execute_task sdk "Explain what MCP servers are")
       {| mcp_servers := ∅;
          system_prompt := Some "You are a helpful assistant.";
          allowed_tools := Some ["Read"; "Write"; "Bash"; "Grep"; "Glob"] |}
  /\ opens (Solution1.route_task sdk "Explain what MCP servers are")
       {| mcp_servers := ∅;
          system_prompt := None;
          allowed_tools := Some ["Read"; "Write"; "Bash"] |}.
Proof.
  split; [|split].
  - destruct (analyze_cases task)
      as [H | [[Hb H] | [(Hb & Hf & H) | (Hb & Hf & H)]]].
    + exists "browser", ["playwright"], AgentOrchestrator.browser_options.
      rewrite (analyze_browser _ H), (execute_browser _ _ H).
      repeat split; auto using session_opens.
    + exists "filesystem", ["filesystem"], AgentOrchestrator.filesystem_options.
      rewrite (analyze_filesystem _ Hb H), (execute_filesystem _ _ Hb H).
      repeat split; auto using session_opens.
    + exists "database", ["database"], AgentOrchestrator.database_options.
      rewrite (analyze_database _ Hb Hf H), (execute_database _ _ Hb Hf H).
      repeat split; auto using session_opens.
    + exists "general", [], AgentOrchestrator.general_options.
      rewrite (analyze_general _ Hb Hf H), (execute_general _ _ Hb Hf H).
      repeat split; auto using session_opens.
  - rewrite execute_general;
      [apply session_opens | apply neither_keyword; reflexivity ..].
  - rewrite route_general;
      [apply session_opens | apply neither_keyword; reflexivity ..].
Qed.

(** C1 (the code at the failing input).  The claim sends "Scrape
    product data from example.com", the first example task of
    Solution 1, to the browser profile.  The code does not: the task
    contains none of the keywords tested ("scrape" is not one), so both
    dispatchers take the default branch, [analyze_task] reports the
    category "general", and the session is opened without any
    tool-server, restricted to the allow-list of local tools. *)
Theorem scrape_task_is_general
    (Message SdkError World : Type) (sdk : SDK Message SdkError World) :
  AgentOrchestrator.analyze_task "Scrape product data from example.com"
    !! "category" = Some (VStr "general")
  /\ opens (AgentOrchestrator.execute_task sdk
              "Scrape product data from example.com")
       {| mcp_servers := ∅;
          system_prompt := Some "You are a helpful assistant.";
          allowed_tools := Some ["Read"; "Write"; "Bash"; "Grep"; "Glob"] |}
  /\ opens (Solution1.route_task sdk "Scrape product data from example.com")
       {| mcp_servers := ∅;
          system_prompt := None;
          allowed_tools := Some ["Read"; "Write"; "Bash"] |}.
Proof.
  split; [reflexivity | split].
  - rewrite execute_general;
      [apply session_opens | apply neither_keyword; reflexivity ..].
  - rewrite route_general;
      [apply session_opens | apply neither_keyword; reflexivity ..].
Qed.

(** The same on a concrete runtime: on "Scrape product data from
    example.com" the category is not "browser", and the session that
    [route_task] and [execute_task] open has no playwright server. *)
Lemma scrape_task_not_browser :
  AgentOrchestrator.analyze_task "Scrape product data from example.com"
    !! "category" <> Some (VStr "browser")
  /\ (mcp_servers <$>
        sessions_opened (log (Solution1.route_task Scripted.sdk
          "Scrape product data from example.com" (Scripted.start [])).1))
     = [∅]
  /\ (mcp_servers <$>
        sessions_opened (log (AgentOrchestrator.execute_task Scripted.sdk
          "Scrape product data from example.com" (Scripted.start [])).1))
     = [∅].
Proof. split; [discriminate | split; reflexivity]. Qed.

(** C2 (the code at the failing input).  The claim sends "Query users
    table for active accounts", the third example task of Solution 1,
    to the database profile.  The code does not: the task contains
    neither "database" nor "sql" nor any other keyword tested, so both
    dispatchers take the default branch, [analyze_task] reports the
    category "general", and the session is opened without any
    tool-server, restricted to the allow-list of local tools. *)
Theorem query_users_task_is_general
    (Message SdkError World : Type) (sdk : SDK Message SdkError World) :
  AgentOrchestrator.analyze_task "Query users table for active accounts"
    !! "category" = Some (VStr "general")
  /\ opens (AgentOrchestrator.execute_task sdk
              "Query users table for active accounts")
       {| mcp_servers := ∅;
          system_prompt := Some "You are a helpful assistant.";
          allowed_tools := Some ["Read"; "Write"; "Bash"; "Grep"; "Glob"] |}
  /\ opens (Solution1.route_task sdk "Query users table for active accounts")
       {| mcp_servers := ∅;
          system_prompt := None;
          allowed_tools := Some ["Read"; "Write"; "Bash"] |}.
Proof.
  split; [reflexivity | split].
  - rewrite execute_general;
      [apply session_opens | apply neither_keyword; reflexivity ..].
  - rewrite route_general;
      [apply session_opens | apply neither_keyword; reflexivity ..].
Qed.

(** The same on a concrete runtime: on "Query users table for active
    accounts" the category is not "database", and the session that
    [route_task] and [execute_task] open has no database server. *)
Lemma query_users_task_not_database :
  AgentOrchestrator.analyze_task "Query users table for active accounts"
    !! "category" <> Some (VStr "database")
  /\ (mcp_servers <$>
        sessions_opened (log (Solution1.route_task Scripted.sdk
          "Query users table for active accounts" (Scripted.start [])).1))
     = [∅]
  /\ (mcp_servers <$>
        sessions_opened (log (AgentOrchestrator.execute_task Scripted.sdk
          "Query users table for active accounts" (Scripted.start [])).1))
     = [∅].
Proof. split; [discriminate | split; reflexivity]. Qed.

(** ** Classification by keyword *)

(** C4. A task that contains "browser" or "web scraping", in any
    letter case and at any position, goes to the browser profile
    whatever else it contains: [route_task] and [execute_task] open the
    browser session and [analyze_task] reports the category
    "browser". *)
Theorem browser_keyword_selects_browser (task : string) :
  has_keyword "browser" task \/ has_keyword "web scraping" task ->
  AgentOrchestrator.analyze_task task !! "category" = Some (VStr "browser")
  /\ forall (Message SdkError World : Type)
       (sdk : SDK Message SdkError World),
       opens (Solution1.route_task sdk task) Solution1.browser_options
       /\ opens (AgentOrchestrator.execute_task sdk task)
            AgentOrchestrator.browser_options.
Proof.
  intros H.
  assert (H4 : browser_keyword4 task).
  { destruct H as [H | H]; [now left | right].
    now apply (has_keyword_beginning "web" " scraping"). }
  split.
  - now rewrite (analyze_browser _ H4).
  - intros Message SdkError World sdk.
    rewrite (route_browser _ _ H), (execute_browser _ _ H4).
    split; apply session_opens.
Qed.

Lemma browser_keyword_selects_browser_witness :
  AgentOrchestrator.analyze_task "Do WEB Scraping of the database files"
    !! "category" = Some (VStr "browser")
  /\ opens (Solution1.route_task Scripted.sdk
              "Do WEB Scraping of the database files")
       Solution1.browser_options.
Proof.
  assert (H : has_keyword "browser" "Do WEB Scraping of the database files"
              \/ has_keyword "web scraping"
                   "Do WEB Scraping of the database files").
  { right. exists "Do ", "WEB Scraping", " of the database files".
    split; reflexivity. }
  split.
  - exact (proj1 (browser_keyword_selects_browser _ H)).
  - exact (proj1 (proj2 (browser_keyword_selects_browser _ H)
                    _ _ _ Scripted.sdk)).
Defined.

(** C5. A task that contains none of the keywords a dispatcher tests
    for goes to the general profile; the empty task is one of them.
    Classification always answers: for every task [analyze_task]
    reports one of the four categories and [route_task] opens one of its
    four sessions. *)
Theorem no_keyword_selects_general :
  (forall task : string,
      ~ browser_keyword task -> ~ filesystem_keyword task ->
      ~ database_keyword task ->
      forall (Message SdkError World : Type)
        (sdk : SDK Message SdkError World),
        opens (Solution1.route_task sdk task) Solution1.general_options)
  /\ (forall task : string,
      ~ browser_keyword4 task -> ~ filesystem_keyword task ->
      ~ database_keyword task ->
      AgentOrchestrator.analyze_task task !! "category"
      = Some (VStr "general")
      /\ forall (Message SdkError World : Type)
           (sdk : SDK Message SdkError World),
           opens (AgentOrchestrator.execute_task sdk task)
             AgentOrchestrator.general_options)
  /\ AgentOrchestrator.analyze_task "" !! "category" = Some (VStr "general")
  /\ (forall task : string,
      (exists category : string,
          category ∈ ["browser"; "filesystem"; "database"; "general"]
          /\ AgentOrchestrator.analyze_task task !! "category"
             = Some (VStr category))
      /\ forall (Message SdkError World : Type)
           (sdk : SDK Message SdkError World),
           exists options : ClaudeAgentOptions,
             options ∈ [Solution1.browser_options;
                        Solution1.filesystem_options;
                        Solution1.database_options;
                        Solution1.general_options]
             /\ opens (Solution1.route_task sdk task) options).
Proof.
  split; [|split; [|split]].
  - intros task Hb Hf Hd Message SdkError World sdk.
    rewrite (route_general _ _ Hb Hf Hd). apply session_opens.
  - intros task Hb Hf Hd. split.
    + now rewrite (analyze_general _ Hb Hf Hd).
    + intros Message SdkError World sdk.
      rewrite (execute_general _ _ Hb Hf Hd). apply session_opens.
  - reflexivity.
  - intros task. split.
    + destruct (analyze_cases task)
        as [H | [[Hb H] | [(Hb & Hf & H) | (Hb & Hf & H)]]].
      * exists "browser". rewrite (analyze_browser _ H).
        split; [set_solver | reflexivity].
      * exists "filesystem". rewrite (analyze_filesystem _ Hb H).
        split; [set_solver | reflexivity].
      * exists "database". rewrite (analyze_database _ Hb Hf H).
        split; [set_solver | reflexivity].
      * exists "general". rewrite (analyze_general _ Hb Hf H).
        split; [set_solver | reflexivity].
    + intros Message SdkError World sdk.
      destruct (route_cases task)
        as [H | [[Hb H] | [(Hb & Hf & H) | (Hb & Hf & H)]]].
      * exists Solution1.browser_options. rewrite (route_browser _ _ H).
        split; [set_solver | apply session_opens].
      * exists Solution1.filesystem_options.
        rewrite (route_filesystem _ _ Hb H).
        split; [set_solver | apply session_opens].
      * exists Solution1.database_options.
        rewrite (route_database _ _ Hb Hf H).
        split; [set_solver | apply session_opens].
      * exists Solution1.general_options.
        rewrite (route_general _ _ Hb Hf H).
        split; [set_solver | apply session_opens].
Qed.

Lemma no_keyword_selects_general_witness :
  opens (Solution1.route_task Scripted.sdk "") Solution1.general_options
  /\ AgentOrchestrator.analyze_task "Explain what MCP servers are"
       !! "category" = Some (VStr "general").
Proof.
  split.
  - apply (proj1 no_keyword_selects_general "");
      apply neither_keyword; reflexivity.
  - apply (proj1 (proj2 no_keyword_selects_general)
             "Explain what MCP servers are");
      apply neither_keyword; reflexivity.
Defined.

(** C6 (as the code has it). The categories are tried in the order
    browser, filesystem, database, and the first whose keyword occurs
    decides; without any keyword the task is general.  So a task with a
    filesystem keyword and a database keyword goes to the filesystem
    profile provided it has no browser keyword.  ([analyze_task] counts
    "web" as a browser keyword, [route_task] "web scraping".) *)
Theorem first_matching_category_wins
    (Message SdkError World : Type) (sdk : SDK Message SdkError World)
    (task : string) :
  (browser_keyword task ->
   opens (Solution1.route_task sdk task) Solution1.browser_options)
  /\ (~ browser_keyword task -> filesystem_keyword task ->
      opens (Solution1.route_task sdk task) Solution1.filesystem_options)
  /\ (~ browser_keyword task -> ~ filesystem_keyword task ->
      database_keyword task ->
      opens (Solution1.route_task sdk task) Solution1.database_options)
  /\ (~ browser_keyword task -> ~ filesystem_keyword task ->
      ~ database_keyword task ->
      opens (Solution1.route_task sdk task) Solution1.general_options)
  /\ (browser_keyword4 task ->
      AgentOrchestrator.analyze_task task !! "category"
      = Some (VStr "browser"))
  /\ (~ browser_keyword4 task -> filesystem_keyword task ->
      AgentOrchestrator.analyze_task task !! "category"
      = Some (VStr "filesystem"))
  /\ (~ browser_keyword4 task -> ~ filesystem_keyword task ->
      database_keyword task ->
      AgentOrchestrator.analyze_task task !! "category"
      = Some (VStr "database"))
  /\ (~ browser_keyword4 task -> ~ filesystem_keyword task ->
      ~ database_keyword task ->
      AgentOrchestrator.analyze_task task !! "category"
      = Some (VStr "general"))
  /\ (filesystem_keyword task -> database_keyword task ->
      (~ browser_keyword task ->
       opens (Solution1.route_task sdk task) Solution1.filesystem_options)
      /\ (~ browser_keyword4 task ->
          AgentOrchestrator.analyze_task task !! "category"
          = Some (VStr "filesystem"))).
Proof.
  split; [|split; [|split; [|split; [|split; [|split; [|split; [|split]]]]]]].
  - intros H. rewrite (route_browser _ _ H). apply session_opens.
  - intros Hb H. rewrite (route_filesystem _ _ Hb H). apply session_opens.
  - intros Hb Hf H. rewrite (route_database _ _ Hb Hf H). apply session_opens.
  - intros Hb Hf H. rewrite (route_general _ _ Hb Hf H). apply session_opens.
  - intros H. now rewrite (analyze_browser _ H).
  - intros Hb H. now rewrite (analyze_filesystem _ Hb H).
  - intros Hb Hf H. now rewrite (analyze_database _ Hb Hf H).
  - intros Hb Hf H. now rewrite (analyze_general _ Hb Hf H).
  - intros H _. split; intros Hb.
    + rewrite (route_filesystem _ _ Hb H). apply session_opens.
    + now rewrite (analyze_filesystem _ Hb H).
Qed.

Lemma first_matching_category_wins_witness :
  opens (Solution1.route_task Scripted.sdk "Load the SQL dump from a file")
    Solution1.filesystem_options
  /\ AgentOrchestrator.analyze_task "Load the SQL dump from a file"
       !! "category" = Some (VStr "filesystem").
Proof.
  pose proof (first_matching_category_wins _ _ _ Scripted.sdk
                "Load the SQL dump from a file") as H.
  destruct H as (_ & _ & _ & _ & _ & _ & _ & _ & H).
  assert (Hf : filesystem_keyword "Load the SQL dump from a file").
  { left. exists "Load the SQL dump from a ", "file", "". split; reflexivity. }
  assert (Hd : database_keyword "Load the SQL dump from a file").
  { right. exists "Load the ", "SQL", " dump from a file". split; reflexivity. }
  destruct (H Hf Hd) as [H1 H2]. split.
  - apply H1. apply neither_keyword. reflexivity.
  - apply H2. apply neither_keyword. reflexivity.
Defined.

(** C6 fails as stated: the task below contains a filesystem keyword
    ("file") and a database keyword ("database"), and it goes to the
    browser profile, not to the filesystem profile, because it contains
    "browser" as well. *)
Lemma filesystem_and_database_keywords_go_to_browser :
  filesystem_keyword "Use the browser to export the database to a file"
  /\ database_keyword "Use the browser to export the database to a file"
  /\ AgentOrchestrator.analyze_task
       "Use the browser to export the database to a file" !! "category"
     = Some (VStr "browser")
  /\ AgentOrchestrator.analyze_task
       "Use the browser to export the database to a file" !! "category"
     <> Some (VStr "filesystem")
  /\ sessions_opened (log (Solution1.route_task Scripted.sdk
       "Use the browser to export the database to a file"
       (Scripted.start [])).1)
     = [Solution1.browser_options]
  /\ Solution1.browser_options <> Solution1.filesystem_options.
Proof.
  split; [|split; [|split; [|split; [|split]]]].
  - left. exists "Use the browser to export the database to a ", "file", "".
    split; reflexivity.
  - left. exists "Use the browser to export the ", "database", " to a file".
    split; reflexivity.
  - reflexivity.
  - discriminate.
  - reflexivity.
  - intros H. apply (f_equal system_prompt) in H. discriminate.
Qed.

(** C9. The two dispatchers do not classify alike.  A task that
    contains "web" but neither "web scraping" nor "browser" nor a
    filesystem or database keyword is general for [route_task] and
    "browser" for [analyze_task]; "visit the website" is such a task. *)
Theorem dispatchers_disagree_on_web :
  (forall task : string,
      has_keyword "web" task ->
      ~ has_keyword "web scraping" task -> ~ has_keyword "browser" task ->
      ~ filesystem_keyword task -> ~ database_keyword task ->
      AgentOrchestrator.analyze_task task !! "category"
      = Some (VStr "browser")
      /\ forall (Message SdkError World : Type)
           (sdk : SDK Message SdkError World),
           opens (Solution1.route_task sdk task) Solution1.general_options)
  /\ AgentOrchestrator.analyze_task "visit the website" !! "category"
     = Some (VStr "browser")
  /\ forall (Message SdkError World : Type)
       (sdk : SDK Message SdkError World),
       opens (Solution1.route_task sdk "visit the website")
         Solution1.general_options.
Proof.
  split; [|split].
  - intros task Hw Hs Hb Hf Hd.
    assert (H4 : browser_keyword4 task) by now right.
    assert (H1 : ~ browser_keyword task) by (unfold browser_keyword; tauto).
    split.
    + now rewrite (analyze_browser _ H4).
    + intros Message SdkError World sdk.
      rewrite (route_general _ _ H1 Hf Hd). apply session_opens.
  - reflexivity.
  - intros Message SdkError World sdk.
    rewrite route_general;
      [apply session_opens | apply neither_keyword; reflexivity ..].
Qed.

Lemma dispatchers_disagree_on_web_witness :
  AgentOrchestrator.analyze_task "Check the WEB page" !! "category"
  = Some (VStr "browser")
  /\ opens (Solution1.route_task Scripted.sdk "Check the WEB page")
       Solution1.general_options.
Proof.
  assert (Hw : has_keyword "web" "Check the WEB page").
  { exists "Check the ", "WEB", " page". split; reflexivity. }
  assert (Hs : ~ has_keyword "web scraping" "Check the WEB page").
  { apply has_keyword_false. reflexivity. }
  assert (Hb : ~ has_keyword "browser" "Check the WEB page").
  { apply has_keyword_false. reflexivity. }
  assert (Hf : ~ filesystem_keyword "Check the WEB page").
  { apply neither_keyword. reflexivity. }
  assert (Hd : ~ database_keyword "Check the WEB page").
  { apply neither_keyword. reflexivity. }
  destruct (proj1 dispatchers_disagree_on_web _ Hw Hs Hb Hf Hd) as [H1 H2].
  split; [exact H1 | apply H2].
Defined.

(** ** Failures *)

Section BatchFacts.
Context {Message SdkError World : Type}.
Variable sdk : SDK Message SdkError World.

(** A run of either dispatcher is one exchange. *)
Lemma route_task_session (task : string) :
  exists options, Solution1.route_task sdk task = session sdk options task.
Proof.
  destruct (route_cases task)
    as [H | [[Hb H] | [(Hb & Hf & H) | (Hb & Hf & H)]]];
    eauto using route_browser, route_filesystem, route_database,
      route_general.
Qed.

Lemma execute_task_session (task : string) :
  exists options,
    AgentOrchestrator.execute_task sdk task = session sdk options task.
Proof.
  destruct (analyze_cases task)
    as [H | [[Hb H] | [(Hb & Hf & H) | (Hb & Hf & H)]]];
    eauto using execute_browser, execute_filesystem, execute_database,
      execute_general.
Qed.

Lemma execute_task_prompt (task : string) (st st' : State World)
    (result : list Message) :
  AgentOrchestrator.execute_task sdk task st = (st', Return result) ->
  prompts_sent (log st') = (prompts_sent (log st) ++ [task])%list.
Proof.
  destruct (execute_task_session task) as [options ->].
  intros H%session_return. rewrite H, prompts_sent_app. reflexivity.
Qed.

Lemma for_each_task_succeeds (tasks : list string) (st st' : State World)
    (results : list (list Message)) :
  all_succeed sdk tasks st results st' ->
  forall acc,
    AgentOrchestrator.for_each_task sdk tasks acc st
    = (st', Return (acc ++ results)%list).
Proof.
  induction 1 as [st | task tasks st st1 st2 result results Hrun _ IH];
    intros acc; simpl.
  - unfold ret. now rewrite app_nil_r.
  - unfold bind. rewrite Hrun, IH, <- app_assoc. reflexivity.
Qed.

Lemma for_each_task_aborts (pre : list string) (st st1 : State World)
    (results : list (list Message)) :
  all_succeed sdk pre st results st1 ->
  forall task post st2 e acc,
    AgentOrchestrator.execute_task sdk task st1 = (st2, Raise e) ->
    AgentOrchestrator.for_each_task sdk (pre ++ task :: post) acc st
    = (st2, Raise e).
Proof.
  induction 1 as [st | t tasks st st1 st2 result results Hrun _ IH];
    intros task post st' e acc Hfail; simpl; unfold bind.
  - now rewrite Hfail.
  - rewrite Hrun. now apply IH.
Qed.

Lemma all_succeed_length (tasks : list string) (st st' : State World)
    (results : list (list Message)) :
  all_succeed sdk tasks st results st' -> length results = length tasks.
Proof. induction 1; simpl; congruence. Qed.

Lemma all_succeed_prompts (tasks : list string) (st st' : State World)
    (results : list (list Message)) :
  all_succeed sdk tasks st results st' ->
  prompts_sent (log st') = (prompts_sent (log st) ++ tasks)%list.
Proof.
  induction 1 as [st | task tasks st st1 st2 result results Hrun _ IH].
  - now rewrite app_nil_r.
  - rewrite IH, (execute_task_prompt _ _ _ _ Hrun), <- app_assoc.
    reflexivity.
Qed.

End BatchFacts.

(** C7. A run of [route_task] or of [execute_task] is one exchange
    with the runtime, in the configuration of the branch taken;
    [_execute_browser_task] is the exchange in the browser
    configuration.  When the session opens, the task is sent and the
    response stream breaks after some messages, the exchange raises: no
    list of messages is returned, the ones received are dropped.  The
    session is opened once, the task is sent once, the session is
    closed, and the exception is the one of the stream unless closing
    the session fails too. *)
Theorem stream_failure_discards_partial_result
    (Message SdkError World : Type) (sdk : SDK Message SdkError World) :
  (forall task : string,
      exists options,
        Solution1.route_task sdk task = session sdk options task)
  /\ (forall task : string,
      exists options,
        AgentOrchestrator.execute_task sdk task = session sdk options task)
  /\ (forall prompt : string,
      AgentOrchestrator._execute_browser_task sdk prompt
      = session sdk AgentOrchestrator.browser_options prompt)
  /\ (forall (options : ClaudeAgentOptions) (prompt : string)
        (st : State World) (w1 w2 w3 : World) (msgs : list Message)
        (e : SdkError),
      sdk_connect sdk options (world st) = (w1, None) ->
      sdk_query sdk prompt w1 = (w2, None) ->
      sdk_receive_response sdk w2 = (w3, stream_of msgs (StreamFail e)) ->
      exists st' e',
        session sdk options prompt st = (st', Raise e')
        /\ log st'
           = (log st
              ++ [EvConnect options; EvQuery prompt; EvReceive; EvDisconnect])%list
        /\ ((sdk_disconnect sdk w3).2 = None -> e' = SDKError e)).
Proof.
  split; [|split; [|split]].
  - apply route_task_session.
  - apply execute_task_session.
  - reflexivity.
  - apply session_stream_failure.
Qed.

Lemma stream_failure_discards_partial_result_witness :
  exists st' e',
    session Scripted.sdk Solution1.browser_options "Open the browser"
      (Scripted.start [Scripted.broken])
    = (st', Raise e')
    /\ log st'
       = [EvConnect Solution1.browser_options; EvQuery "Open the browser";
          EvReceive; EvDisconnect]
    /\ ((sdk_disconnect Scripted.sdk []).2 = None
        -> e' = SDKError "connection reset").
Proof.
  apply (proj2 (proj2 (proj2
           (stream_failure_discards_partial_result _ _ _ Scripted.sdk)))
           Solution1.browser_options "Open the browser"
           (Scripted.start [Scripted.broken])
           [Scripted.broken] [Scripted.broken] []
           ["thinking"; "partial answer"] "connection reset");
    reflexivity.
Defined.

(** C8. [execute_multiple_tasks] runs the tasks one after the other in
    the order of the list, each from the state the previous one left.
    When they all succeed it returns their results, one per task and in
    the order of the tasks, and the prompts sent to the runtime are the
    tasks in that order.  When one raises, the batch raises the same
    exception in the state that task left: no result is returned and no
    later task is started. *)
Theorem batch_runs_in_order_and_aborts
    (Message SdkError World : Type) (sdk : SDK Message SdkError World) :
  (forall (tasks : list string) (st st' : State World)
      (results : list (list Message)),
      all_succeed sdk tasks st results st' ->
      AgentOrchestrator.execute_multiple_tasks sdk tasks st
      = (st', Return results)
      /\ length results = length tasks
      /\ prompts_sent (log st') = (prompts_sent (log st) ++ tasks)%list)
  /\ (forall (pre post : list string) (task : string)
        (st st1 st2 : State World) (results : list (list Message))
        (e : PyExn SdkError),
      all_succeed sdk pre st results st1 ->
      AgentOrchestrator.execute_task sdk task st1 = (st2, Raise e) ->
      AgentOrchestrator.execute_multiple_tasks sdk (pre ++ task :: post) st
      = (st2, Raise e)).
Proof.
  split.
  - intros tasks st st' results H. split; [|split].
    + unfold AgentOrchestrator.execute_multiple_tasks.
      now rewrite (for_each_task_succeeds _ _ _ _ _ H).
    + eapply all_succeed_length, H.
    + eapply all_succeed_prompts, H.
  - intros pre post task st st1 st2 results e H Hfail.
    unfold AgentOrchestrator.execute_multiple_tasks.
    eapply for_each_task_aborts; eauto.
Qed.

Lemma batch_runs_in_order_and_aborts_witness :
  (exists st',
      AgentOrchestrator.execute_multiple_tasks Scripted.sdk
        ["List all markdown files in docs/";
         "Query database for user activity in last 30 days"]
        (Scripted.start [Scripted.answer "3 files"; Scripted.answer "42 rows"])
      = (st', Return [["3 files"]; ["42 rows"]])
      /\ prompts_sent (log st')
         = ["List all markdown files in docs/";
            "Query database for user activity in last 30 days"])
  /\ (exists st2,
      AgentOrchestrator.execute_multiple_tasks Scripted.sdk
        ["List all markdown files in docs/";
         "Query database for user activity in last 30 days";
         "Explain the difference between async and sync functions"]
        (Scripted.start [Scripted.answer "3 files"; Scripted.broken])
      = (st2, Raise (SDKError "connection reset"))
      /\ prompts_sent (log st2)
         = ["List all markdown files in docs/";
            "Query database for user activity in last 30 days"]).
Proof.
  split.
  - eexists.
    assert (H : all_succeed Scripted.sdk
              ["List all markdown files in docs/";
               "Query database for user activity in last 30 days"]
              (Scripted.start
                 [Scripted.answer "3 files"; Scripted.answer "42 rows"])
              [["3 files"]; ["42 rows"]]
              {| world := [];
                 log := [EvConnect AgentOrchestrator.filesystem_options;
                         EvQuery "List all markdown files in docs/";
                         EvReceive; EvDisconnect;
                         EvConnect AgentOrchestrator.database_options;
                         EvQuery "Query database for user activity in last 30 days";
                         EvReceive; EvDisconnect] |}).
    { eapply all_succeed_cons; [reflexivity|].
      eapply all_succeed_cons; [reflexivity|].
      apply all_succeed_nil. }
    destruct (proj1 (batch_runs_in_order_and_aborts _ _ _ Scripted.sdk)
                _ _ _ _ H) as (Hrun & _ & Hprompts).
    split; [exact Hrun | exact Hprompts].
  - eexists.
    assert (H : all_succeed Scripted.sdk
              ["List all markdown files in docs/"]
              (Scripted.start [Scripted.answer "3 files"; Scripted.broken])
              [["3 files"]]
              {| world := [Scripted.broken];
                 log := [EvConnect AgentOrchestrator.filesystem_options;
                         EvQuery "List all markdown files in docs/";
                         EvReceive; EvDisconnect] |}).
    { eapply all_succeed_cons; [reflexivity|]. apply all_succeed_nil. }
    split.
    + apply (proj2 (batch_runs_in_order_and_aborts _ _ _ Scripted.sdk)
               ["List all markdown files in docs/"]
               ["Explain the difference between async and sync functions"]
               "Query database for user activity in last 30 days"
               _ _ _ _ _ H).
      reflexivity.
    + reflexivity.
Defined.

(** * Further properties *)

(** ** What a run can raise, and which sessions it opens *)

Section RunFacts.
Context {Message SdkError World : Type}.
Variable sdk : SDK Message SdkError World.

(** An exchange returns or raises an exception of the SDK. *)
Lemma session_outcome (options : ClaudeAgentOptions) (prompt : string)
    (st : State World) :
  (exists result, (session sdk options prompt st).2 = Return result)
  \/ (exists e, (session sdk options prompt st).2 = Raise (SDKError e)).
Proof.
  unfold session, with_client, aenter, bind, client_query, receive_all,
    aexit, emit, lift_result; simpl.
  destruct (sdk_connect sdk options (world st)) as [w1 [e1|]]; simpl;
    [eauto|].
  destruct (sdk_query sdk prompt w1) as [w2 [e2|]]; simpl.
  - destruct (sdk_disconnect sdk w2) as [w3 [e3|]]; simpl; eauto.
  - destruct (sdk_receive_response sdk w2) as [w3 s]; simpl.
    destruct (sdk_disconnect sdk w3) as [w4 [e4|]]; simpl; [eauto|].
    generalize (@nil Message). induction s as [|m s IH|e]; intros acc;
      simpl; eauto.
Qed.

(** The orchestrator's exchange is in one of its four configurations. *)
Lemma execute_task_options (task : string) :
  exists options,
    options ∈ [AgentOrchestrator.browser_options;
               AgentOrchestrator.filesystem_options;
               AgentOrchestrator.database_options;
               AgentOrchestrator.general_options]
    /\ AgentOrchestrator.execute_task sdk task = session sdk options task.
Proof.
  destruct (analyze_cases task)
    as [H | [[Hb H] | [(Hb & Hf & H) | (Hb & Hf & H)]]].
  - exists AgentOrchestrator.browser_options.
    split; [set_solver | now apply execute_browser].
  - exists AgentOrchestrator.filesystem_options.
    split; [set_solver | now apply execute_filesystem].
  - exists AgentOrchestrator.database_options.
    split; [set_solver | now apply execute_database].
  - exists AgentOrchestrator.general_options.
    split; [set_solver | now apply execute_general].
Qed.

Lemma orchestrator_options_small (options : ClaudeAgentOptions) :
  options ∈ [AgentOrchestrator.browser_options;
             AgentOrchestrator.filesystem_options;
             AgentOrchestrator.database_options;
             AgentOrchestrator.general_options] ->
  size (mcp_servers options) <= 1.
Proof.
  rewrite !elem_of_cons, elem_of_nil.
  intros [-> | [-> | [-> | [-> | []]]]]; simpl;
    rewrite ?map_size_singleton, ?map_size_empty; lia.
Qed.

(** The loop of the batch, started with results already collected. *)
Lemma for_each_task_acc (tasks : list string)
    (acc : list (list Message)) (st : State World) :
  AgentOrchestrator.for_each_task sdk tasks acc st
  = match AgentOrchestrator.for_each_task sdk tasks [] st with
    | (st', Return results) => (st', Return (acc ++ results)%list)
    | (st', Raise e) => (st', Raise e)
    end.
Proof.
  revert acc st. induction tasks as [|task tasks IH]; intros acc st; simpl.
  - unfold ret. now rewrite app_nil_r.
  - unfold bind.
    destruct (AgentOrchestrator.execute_task sdk task st) as [st1 [r|e]];
      [|reflexivity].
    rewrite (IH (acc ++ [r])%list), (IH ([] ++ [r])%list).
    destruct (AgentOrchestrator.for_each_task sdk tasks [] st1)
      as [st2 [rs|e]]; [|reflexivity].
    now rewrite <- app_assoc.
Qed.

End RunFacts.

(** X1. The dict lookups of [execute_task] never fail.  Every dict
    [analyze_task] returns holds the three keys [execute_task] reads
    ("category" for the dispatch, "category", "complexity" and "tools"
    in its [print] calls), and no run of [execute_task] or of
    [execute_multiple_tasks] ends in the [KeyError] of a lookup. *)
Theorem orchestrator_never_raises_key_error
    (Message SdkError World : Type) (sdk : SDK Message SdkError World)
    (st : State World) (key : string) :
  (forall task : string,
      is_Some (AgentOrchestrator.analyze_task task !! "category")
      /\ is_Some (AgentOrchestrator.analyze_task task !! "complexity")
      /\ is_Some (AgentOrchestrator.analyze_task task !! "tools"))
  /\ (forall task : string,
      (AgentOrchestrator.execute_task sdk task st).2 <> Raise (KeyError key))
  /\ (forall tasks : list string,
      (AgentOrchestrator.execute_multiple_tasks sdk tasks st).2
      <> Raise (KeyError key)).
Proof.
  assert (Hone : forall task st0,
    (AgentOrchestrator.execute_task sdk task st0).2 <> Raise (KeyError key)).
  { intros task st0. destruct (execute_task_options sdk task) as (o & _ & ->).
    destruct (session_outcome sdk o task st0) as [[r ->] | [e ->]];
      discriminate. }
  split; [|split; [intros task; apply Hone|]].
  { intros task.
    destruct (analyze_cases task)
      as [H | [[Hb H] | [(Hb & Hf & H) | (Hb & Hf & H)]]].
    - rewrite (analyze_browser _ H). repeat split; eexists; reflexivity.
    - rewrite (analyze_filesystem _ Hb H).
      repeat split; eexists; reflexivity.
    - rewrite (analyze_database _ Hb Hf H).
      repeat split; eexists; reflexivity.
    - rewrite (analyze_general _ Hb Hf H).
      repeat split; eexists; reflexivity. }
  intros tasks. unfold AgentOrchestrator.execute_multiple_tasks.
  generalize (@nil (list Message)). revert st.
  induction tasks as [|task tasks IH]; intros st acc; simpl.
  - discriminate.
  - unfold bind. specialize (Hone task st).
    destruct (AgentOrchestrator.execute_task sdk task st) as [st1 [r|e]].
    + apply IH.
    + simpl in *. intros [= ->]. now apply Hone.
Qed.

(** X2. Every session a batch opens is isolated: whatever the tasks
    and the answers of the runtime, [execute_multiple_tasks] opens at
    most one session per task and each of them sees at most one MCP
    server. *)
Theorem batch_sessions_are_isolated
    (Message SdkError World : Type) (sdk : SDK Message SdkError World)
    (tasks : list string) (st : State World) :
  exists opened : list ClaudeAgentOptions,
    sessions_opened
      (log (AgentOrchestrator.execute_multiple_tasks sdk tasks st).1)
    = (sessions_opened (log st) ++ opened)%list
    /\ length opened <= length tasks
    /\ Forall (fun options => size (mcp_servers options) <= 1) opened.
Proof.
  unfold AgentOrchestrator.execute_multiple_tasks.
  generalize (@nil (list Message)). revert st.
  induction tasks as [|task tasks IH]; intros st acc; simpl.
  - exists []. rewrite app_nil_r. auto.
  - unfold bind.
    destruct (execute_task_options sdk task) as (o & Ho & Heq).
    pose proof (session_opens sdk o task st) as Hopen.
    rewrite <- Heq in Hopen.
    destruct (AgentOrchestrator.execute_task sdk task st) as [st1 [r|e]];
      simpl in Hopen.
    + destruct (IH st1 (acc ++ [r])%list) as (opened & Hlog & Hlen & Hall).
      exists (o :: opened). rewrite Hlog, Hopen, <- app_assoc.
      split; [reflexivity|]. split; [simpl; lia|].
      constructor; [now apply orchestrator_options_small | exact Hall].
    + exists [o]. split; [exact Hopen|]. split; [simpl; lia|].
      constructor; [now apply orchestrator_options_small | constructor].
Qed.

(** X3. Running a batch on a concatenation is running the first part
    and then, from the state it left, the second: the results are
    concatenated, and a failure of either part is the failure of the
    whole. *)
Theorem batch_of_concatenation
    (Message SdkError World : Type) (sdk : SDK Message SdkError World)
    (tasks1 tasks2 : list string) (st : State World) :
  AgentOrchestrator.execute_multiple_tasks sdk (tasks1 ++ tasks2) st
  = match AgentOrchestrator.execute_multiple_tasks sdk tasks1 st with
    | (st1, Return results1) =>
        match AgentOrchestrator.execute_multiple_tasks sdk tasks2 st1 with
        | (st2, Return results2) =>
            (st2, Return (results1 ++ results2)%list)
        | (st2, Raise e) => (st2, Raise e)
        end
    | (st1, Raise e) => (st1, Raise e)
    end.
Proof.
  unfold AgentOrchestrator.execute_multiple_tasks.
  revert st. induction tasks1 as [|task tasks1 IH]; intros st; simpl.
  - unfold ret.
    destruct (AgentOrchestrator.for_each_task sdk tasks2 [] st)
      as [st2 [r2|e]]; reflexivity.
  - unfold bind.
    destruct (AgentOrchestrator.execute_task sdk task st) as [st1 [r|e]];
      [|reflexivity].
    rewrite (for_each_task_acc sdk (tasks1 ++ tasks2)), IH.
    rewrite (for_each_task_acc sdk tasks1 ([] ++ [r])%list).
    destruct (AgentOrchestrator.for_each_task sdk tasks1 [] st1)
      as [st2 [r1|e]]; [|reflexivity].
    destruct (AgentOrchestrator.for_each_task sdk tasks2 [] st2)
      as [st3 [r2|e]]; [|reflexivity].
    now rewrite <- app_assoc.
Qed.

(** ** The ways an exchange ends *)

Section ExchangeFacts.
Context {Message SdkError World : Type}.
Variable sdk : SDK Message SdkError World.






End ExchangeFacts.

Section PassedOptions.
Context {Message SdkError World : Type}.
Variable sdk : SDK Message SdkError World.




End PassedOptions.









(** ** The two dispatchers side by side *)

Section Comparison.

Lemma lower_char_idem (c : ascii) : lower_char (lower_char c) = lower_char c.
Proof. destruct c as [[] [] [] [] [] [] [] []]; reflexivity. Qed.

Lemma lower_idem (s : string) : lower (lower s) = lower s.
Proof.
  induction s as [|c s IH]; simpl; [reflexivity|].
  now rewrite lower_char_idem, IH.
Qed.

(** Text around a task does not hide a keyword. *)
Lemma has_keyword_extend (k pre task post : string) :
  has_keyword k task -> has_keyword k (pre ++ task ++ post).
Proof.
  intros (a & u & b & -> & Hu). exists (pre ++ a), u, (b ++ post).
  split; [|exact Hu]. now rewrite !string_app_assoc.
Qed.

End Comparison.

(** X8. The two dispatchers give a task the same MCP servers exactly
    when the task contains a browser keyword of [route_task] ("browser"
    or "web scraping") or does not contain "web" at all; on every other
    task [execute_task] opens the playwright session and [route_task]
    does not. *)
Theorem dispatchers_agree_unless_bare_web
    (Message SdkError World : Type) (sdk : SDK Message SdkError World)
    (task : string) :
  exists o1 o4 : ClaudeAgentOptions,
    opens (Solution1.route_task sdk task) o1
    /\ opens (AgentOrchestrator.execute_task sdk task) o4
    /\ (mcp_servers o1 = mcp_servers o4
        <-> browser_keyword task \/ ~ has_keyword "web" task)
    /\ (~ (browser_keyword task \/ ~ has_keyword "web" task) ->
        o4 = AgentOrchestrator.browser_options
        /\ "playwright" ∉ dom (mcp_servers o1)).
Proof.
  assert (Hweb : browser_keyword task -> browser_keyword4 task).
  { intros [H | H]; [now left | right].
    now apply (has_keyword_beginning "web" " scraping"). }
  destruct (keyword_dec "web" "web" task) as [Hw | Hw].
  - (* "web" occurs *)
    assert (Hw' : has_keyword "web" task) by tauto.
    assert (H4 : browser_keyword4 task) by now right.
    destruct (route_cases task)
      as [H | [[Hb H] | [(Hb & Hf & H) | (Hb & Hf & H)]]].
    + exists Solution1.browser_options, AgentOrchestrator.browser_options.
      rewrite (route_browser _ _ H), (execute_browser _ _ H4).
      repeat split; auto using session_opens; tauto.
    + exists Solution1.filesystem_options, AgentOrchestrator.browser_options.
      rewrite (route_filesystem _ _ Hb H), (execute_browser _ _ H4).
      split; [apply session_opens|]. split; [apply session_opens|].
      split; [split|].
      * intros E. apply (f_equal (fun m => m !! "playwright")) in E.
        discriminate E.
      * tauto.
      * intros _. split; [reflexivity|]. simpl.
        rewrite dom_singleton_L. set_solver.
    + exists Solution1.database_options, AgentOrchestrator.browser_options.
      rewrite (route_database _ _ Hb Hf H), (execute_browser _ _ H4).
      split; [apply session_opens|]. split; [apply session_opens|].
      split; [split|].
      * intros E. apply (f_equal (fun m => m !! "playwright")) in E.
        discriminate E.
      * tauto.
      * intros _. split; [reflexivity|]. simpl.
        rewrite dom_singleton_L. set_solver.
    + exists Solution1.general_options, AgentOrchestrator.browser_options.
      rewrite (route_general _ _ Hb Hf H), (execute_browser _ _ H4).
      split; [apply session_opens|]. split; [apply session_opens|].
      split; [split|].
      * intros E. apply (f_equal (fun m => m !! "playwright")) in E.
        discriminate E.
      * tauto.
      * intros _. split; [reflexivity|]. simpl.
        rewrite dom_empty_L. set_solver.
  - (* no "web" *)
    assert (Hw' : ~ has_keyword "web" task) by tauto.
    destruct (route_cases task)
      as [H | [[Hb H] | [(Hb & Hf & H) | (Hb & Hf & H)]]].
    + exists Solution1.browser_options, AgentOrchestrator.browser_options.
      rewrite (route_browser _ _ H), (execute_browser _ _ (Hweb H)).
      repeat split; auto using session_opens; tauto.
    + assert (H4 : ~ browser_keyword4 task).
      { unfold browser_keyword4, browser_keyword in *. tauto. }
      exists Solution1.filesystem_options,
        AgentOrchestrator.filesystem_options.
      rewrite (route_filesystem _ _ Hb H), (execute_filesystem _ _ H4 H).
      repeat split; auto using session_opens; tauto.
    + assert (H4 : ~ browser_keyword4 task).
      { unfold browser_keyword4, browser_keyword in *. tauto. }
      exists Solution1.database_options, AgentOrchestrator.database_options.
      rewrite (route_database _ _ Hb Hf H), (execute_database _ _ H4 Hf H).
      repeat split; auto using session_opens; tauto.
    + assert (H4 : ~ browser_keyword4 task).
      { unfold browser_keyword4, browser_keyword in *. tauto. }
      exists Solution1.general_options, AgentOrchestrator.general_options.
      rewrite (route_general _ _ Hb Hf H), (execute_general _ _ H4 Hf H).
      repeat split; auto using session_opens; tauto.
Qed.

(** X9. Classification does not see letter case: lower-casing a task
    changes neither the dict [analyze_task] returns nor the
    configuration [route_task] opens its session with. *)
Theorem classification_ignores_case
    (Message SdkError World : Type) (sdk : SDK Message SdkError World)
    (task : string) :
  AgentOrchestrator.analyze_task (lower task)
  = AgentOrchestrator.analyze_task task
  /\ exists options,
       opens (Solution1.route_task sdk task) options
       /\ opens (Solution1.route_task sdk (lower task)) options.
Proof.
  split.
  - unfold AgentOrchestrator.analyze_task. now rewrite lower_idem.
  - assert (Hk : forall k, has_keyword k (lower task) <-> has_keyword k task).
    { intros k. now rewrite !has_keyword_iff, lower_idem. }
    assert (Hb : browser_keyword (lower task) <-> browser_keyword task).
    { unfold browser_keyword. now rewrite !Hk. }
    assert (Hf : filesystem_keyword (lower task) <-> filesystem_keyword task).
    { unfold filesystem_keyword. now rewrite !Hk. }
    assert (Hd : database_keyword (lower task) <-> database_keyword task).
    { unfold database_keyword. now rewrite !Hk. }
    destruct (route_cases task)
      as [H | [[Hb' H] | [(Hb' & Hf' & H) | (Hb' & Hf' & H)]]].
    + exists Solution1.browser_options.
      rewrite !route_browser by tauto. split; apply session_opens.
    + exists Solution1.filesystem_options.
      rewrite !route_filesystem by tauto. split; apply session_opens.
    + exists Solution1.database_options.
      rewrite !route_database by tauto. split; apply session_opens.
    + exists Solution1.general_options.
      rewrite !route_general by tauto. split; apply session_opens.
Qed.

(** X10. Putting text before and after a task never loses a match: a
    task that [analyze_task] does not classify as "general" is not
    "general" with the text around it, and a "browser" task stays
    "browser". *)
Theorem surrounding_text_keeps_the_match (pre task post : string) :
  AgentOrchestrator.analyze_task task !! "category"
  <> Some (VStr "general") ->
  AgentOrchestrator.analyze_task (pre ++ task ++ post) !! "category"
  <> Some (VStr "general")
  /\ (AgentOrchestrator.analyze_task task !! "category"
      = Some (VStr "browser") ->
      AgentOrchestrator.analyze_task (pre ++ task ++ post) !! "category"
      = Some (VStr "browser")).
Proof.
  assert (Hext : forall k1 k2,
    has_keyword k1 task \/ has_keyword k2 task ->
    has_keyword k1 (pre ++ task ++ post)
    \/ has_keyword k2 (pre ++ task ++ post)).
  { intros k1 k2 [H | H]; [left | right]; now apply has_keyword_extend. }
  intros Hcat. split.
  - intros Hgen. apply Hcat. clear Hcat.
    destruct (analyze_cases (pre ++ task ++ post))
      as [H | [[Hb H] | [(Hb & Hf & H) | (Hb & Hf & H)]]].
    + rewrite (analyze_browser _ H) in Hgen. discriminate Hgen.
    + rewrite (analyze_filesystem _ Hb H) in Hgen. discriminate Hgen.
    + rewrite (analyze_database _ Hb Hf H) in Hgen. discriminate Hgen.
    + rewrite (analyze_general task); [reflexivity | ..];
        intros H'; [apply Hb | apply Hf | apply H]; now apply Hext.
  - intros Hbrowser.
    destruct (analyze_cases task)
      as [H | [[Hb H] | [(Hb & Hf & H) | (Hb & Hf & H)]]].
    + now rewrite (analyze_browser _ (Hext _ _ H)).
    + rewrite (analyze_filesystem _ Hb H) in Hbrowser. discriminate Hbrowser.
    + rewrite (analyze_database _ Hb Hf H) in Hbrowser. discriminate Hbrowser.
    + rewrite (analyze_general _ Hb Hf H) in Hbrowser. discriminate Hbrowser.
Qed.

Lemma surrounding_text_keeps_the_match_witness :
  AgentOrchestrator.analyze_task
    ("Please " ++ "query the SQL store" ++ ", then stop") !! "category"
  <> Some (VStr "general")
  /\ (AgentOrchestrator.analyze_task "query the SQL store" !! "category"
      = Some (VStr "browser") ->
      AgentOrchestrator.analyze_task
        ("Please " ++ "query the SQL store" ++ ", then stop") !! "category"
      = Some (VStr "browser")).
Proof.
  apply (surrounding_text_keeps_the_match
           "Please " "query the SQL store" ", then stop").
  discriminate.
Defined.

(** ** What [execute_task] announces *)

(** X11. The line [execute_task] prints about the tools agrees with
    the session it then opens: it reads "Required Tools: none" when the
    session has no MCP server, and otherwise names the one server of the
    session.  Building the line never raises. *)
Theorem required_tools_line_matches_session
    (Message SdkError World : Type) (sdk : SDK Message SdkError World)
    (task : string) :
  exists (options : ClaudeAgentOptions) (names : string),
    opens (AgentOrchestrator.execute_task sdk task) options
    /\ required_tools_line (AgentOrchestrator.analyze_task task)
       = (Return ("Required Tools: " ++ names ++ newline)
           : Outcome SdkError string)
    /\ ((mcp_servers options = ∅ /\ names = "none")
        \/ exists config, mcp_servers options = {[ names := config ]}).
Proof.
  destruct (analyze_cases task)
    as [H | [[Hb H] | [(Hb & Hf & H) | (Hb & Hf & H)]]].
  - exists AgentOrchestrator.browser_options, "playwright".
    rewrite (analyze_browser _ H), (execute_browser _ _ H).
    split; [apply session_opens|]. split; [reflexivity|]. right. eauto.
  - exists AgentOrchestrator.filesystem_options, "filesystem".
    rewrite (analyze_filesystem _ Hb H), (execute_filesystem _ _ Hb H).
    split; [apply session_opens|]. split; [reflexivity|]. right. eauto.
  - exists AgentOrchestrator.database_options, "database".
    rewrite (analyze_database _ Hb Hf H), (execute_database _ _ Hb Hf H).
    split; [apply session_opens|]. split; [reflexivity|]. right. eauto.
  - exists AgentOrchestrator.general_options, "none".
    rewrite (analyze_general _ Hb Hf H), (execute_general _ _ Hb Hf H).
    split; [apply session_opens|]. split; [reflexivity|]. left. auto.
Qed.

(** ** Solutions 2 and 3 and the comparison *)

Section OtherSessions.
Context {Message SdkError World : Type}.
Variable sdk : SDK Message SdkError World.

(** A [with] block whose body makes only [query] and
    [receive_response] calls opens its own session and no other. *)
Lemma with_client_opens {A} (options : ClaudeAgentOptions)
    (body : Async SdkError World A) :
  (forall st, sessions_opened (log (body st).1) = sessions_opened (log st)) ->
  opens (with_client sdk options body) options.
Proof.
  intros Hbody st. unfold with_client, aenter, aexit, emit.
  destruct (sdk_connect sdk options (world st)) as [w1 [e1|]]; simpl.
  { now rewrite sessions_opened_app. }
  match goal with |- context [body ?s] => specialize (Hbody s);
    destruct (body s) as [st2 r] end.
  simpl in Hbody.
  destruct (sdk_disconnect sdk (world st2)) as [w3 [e3|]]; simpl;
    now rewrite sessions_opened_app, Hbody, sessions_opened_app,
      app_nil_r.
Qed.

End OtherSessions.

(** No [receive_response] call among explicitly listed calls. *)
Ltac no_receive :=
  let Hin := fresh "Hin" in
  intros Hin;
  repeat (apply elem_of_cons in Hin as [Hin | Hin]; [discriminate Hin|]);
  now apply elem_of_nil in Hin.

(** X12. [solution2_tool_allowlisting] opens one session in which both
    the playwright and the filesystem server are configured, while its
    allow-list names no playwright tool: every MCP tool it allows is a
    tool of the filesystem server. *)
Theorem solution2_shares_servers_not_tools
    (Message SdkError World : Type) (sdk : SDK Message SdkError World) :
  exists (options : ClaudeAgentOptions) (tools : list string),
    opens (solution2_tool_allowlisting sdk) options
    /\ dom (mcp_servers options)
       = ({[ "playwright"; "filesystem" ]} : gset string)
    /\ allowed_tools options = Some tools
    /\ forallb (fun tool =>
          negb (str_in "playwright" (lower tool))
          && implb (String.prefix "mcp__" tool)
               (String.prefix "mcp__filesystem__" tool)) tools
       = true.
Proof.
  eexists _, _. split; [|split; [|split]].
  - unfold solution2_tool_allowlisting. apply with_client_opens.
    intros st. unfold bind, client_query, receive_and_ignore, emit.
    destruct (sdk_query sdk _ (world st)) as [w1 [e1|]]; simpl.
    + now rewrite sessions_opened_app, app_nil_r.
    + destruct (sdk_receive_response sdk w1) as [w2 s]; simpl.
      now rewrite !sessions_opened_app, !app_nil_r.
  - simpl. rewrite dom_insert_L, dom_singleton_L. reflexivity.
  - reflexivity.
  - reflexivity.
Qed.

(** X13. [compare_approaches] opens one session that sees the
    filesystem server only, and never reads the response: in whatever
    way the runtime answers, no [receive_response] call is made. *)
Theorem compare_approaches_reads_no_response
    (Message SdkError World : Type) (sdk : SDK Message SdkError World) :
  (exists options : ClaudeAgentOptions,
      opens (compare_approaches sdk) options
      /\ dom (mcp_servers options) = ({[ "filesystem" ]} : gset string))
  /\ forall st : State World,
       exists calls : list Event,
         log (compare_approaches sdk st).1 = (log st ++ calls)%list
         /\ EvReceive ∉ calls.
Proof.
  split.
  - eexists. split.
    + unfold compare_approaches. apply with_client_opens.
      intros st. unfold client_query, emit.
      destruct (sdk_query sdk _ (world st)) as [w1 r]; simpl.
      now rewrite sessions_opened_app, app_nil_r.
    + simpl. now rewrite dom_singleton_L.
  - intros st.
    unfold compare_approaches, with_client, aenter, aexit, client_query,
      emit.
    destruct (sdk_connect sdk _ (world st)) as [w1 [e1|]]; simpl.
    { eexists. split; [reflexivity | no_receive]. }
    destruct (sdk_query sdk _ w1) as [w2 r]; simpl.
    destruct (sdk_disconnect sdk w2) as [w3 [e3|]]; simpl;
      (eexists; split; [rewrite <- !app_assoc; reflexivity | no_receive]).
Qed.

(** ** The tool handlers of Solution 3 *)

Section HandlerFacts.

Lemma str_in_middle (pre s post : string) : str_in s (pre ++ s ++ post) = true.
Proof. apply str_in_spec. now exists pre, post. Qed.

Lemma string_app_nil_r (s : string) : s ++ "" = s.
Proof.
  induction s as [|c s IH]; [reflexivity|].
  change (String c (s ++ "") = String c s). now rewrite IH.
Qed.

Lemma str_in_end (pre s : string) : str_in s (pre ++ s) = true.
Proof.
  rewrite <- (string_app_nil_r s) at 2. apply str_in_middle.
Qed.

End HandlerFacts.

(** X14. Given both of its arguments, a tool handler returns one text
    block, and the text quotes the two arguments as they were passed:
    [analyze_code] the file path and the check type, [generate_docs]
    the file path and the format. *)
Theorem tool_handlers_quote_their_arguments
    (SdkError : Type) (args : gmap string string)
    (file_path second : string) :
  args !! "file_path" = Some file_path ->
  (args !! "check_type" = Some second ->
   exists text,
     Solution3.analyze_code args
     = (Return {[ "content" := [ {[ "type" := "text"; "text" := text ]} ] ]}
         : Outcome SdkError _)
     /\ str_in file_path text = true /\ str_in second text = true)
  /\ (args !! "format" = Some second ->
      exists text,
        Solution3.generate_docs args
        = (Return {[ "content" := [ {[ "type" := "text"; "text" := text ]} ] ]}
            : Outcome SdkError _)
        /\ str_in file_path text = true /\ str_in second text = true).
Proof.
  intros Hpath. split; intros Hsecond.
  - unfold Solution3.analyze_code, Solution3.getarg.
    rewrite Hpath, Hsecond. eexists. split; [reflexivity|]. split.
    + apply (str_in_middle "Analyzed ").
    + rewrite <- (string_app_assoc "Analyzed " file_path),
        <- (string_app_assoc _ " for ").
      apply str_in_middle.
  - unfold Solution3.generate_docs, Solution3.getarg.
    rewrite Hpath, Hsecond. eexists. split; [reflexivity|]. split.
    + rewrite <- (string_app_assoc "Generated " second),
        <- (string_app_assoc _ " documentation for ").
      apply str_in_end.
    + apply (str_in_middle "Generated ").
Qed.

Lemma tool_handlers_quote_their_arguments_witness :
  (exists text,
      Solution3.analyze_code
        {[ "file_path" := "src/auth.py"; "check_type" := "security" ]}
      = (Return {[ "content" := [ {[ "type" := "text"; "text" := text ]} ] ]}
          : Outcome False _)
      /\ str_in "src/auth.py" text = true /\ str_in "security" text = true)
  /\ (exists text,
      Solution3.generate_docs
        {[ "file_path" := "src/auth.py"; "format" := "markdown" ]}
      = (Return {[ "content" := [ {[ "type" := "text"; "text" := text ]} ] ]}
          : Outcome False _)
      /\ str_in "src/auth.py" text = true /\ str_in "markdown" text = true).
Proof.
  split.
  - refine (proj1 (tool_handlers_quote_their_arguments False
              {[ "file_path" := "src/auth.py"; "check_type" := "security" ]}
              "src/auth.py" "security" _) _);
      reflexivity.
  - refine (proj2 (tool_handlers_quote_their_arguments False
              {[ "file_path" := "src/auth.py"; "format" := "markdown" ]}
              "src/auth.py" "markdown" _) _);
      reflexivity.
Defined.

(** X15. A tool handler fails exactly when an argument it reads is
    missing, with a [KeyError]; the path is read first, so without
    "file_path" the error names "file_path" whatever else is passed.
    Arguments the handler does not read are ignored. *)
Theorem tool_handlers_missing_argument
    (SdkError : Type) (args : gmap string string) :
  ((exists result,
       Solution3.analyze_code args = (Return result : Outcome SdkError _))
   <-> is_Some (args !! "file_path") /\ is_Some (args !! "check_type"))
  /\ ((exists result,
          Solution3.generate_docs args = (Return result : Outcome SdkError _))
      <-> is_Some (args !! "file_path") /\ is_Some (args !! "format"))
  /\ (args !! "file_path" = None ->
      Solution3.analyze_code args
      = (Raise (KeyError "file_path") : Outcome SdkError _)
      /\ Solution3.generate_docs args
         = (Raise (KeyError "file_path") : Outcome SdkError _))
  /\ (is_Some (args !! "file_path") ->
      (args !! "check_type" = None ->
       Solution3.analyze_code args
       = (Raise (KeyError "check_type") : Outcome SdkError _))
      /\ (args !! "format" = None ->
          Solution3.generate_docs args
          = (Raise (KeyError "format") : Outcome SdkError _)))
  /\ (forall key value : string,
      key <> "file_path" -> key <> "check_type" -> key <> "format" ->
      Solution3.analyze_code (<[ key := value ]> args)
      = (Solution3.analyze_code args : Outcome SdkError _)
      /\ Solution3.generate_docs (<[ key := value ]> args)
         = (Solution3.generate_docs args : Outcome SdkError _)).
Proof.
  unfold Solution3.analyze_code, Solution3.generate_docs, Solution3.getarg.
  split; [|split; [|split; [|split]]].
  - destruct (args !! "file_path") as [p|], (args !! "check_type") as [c|];
      split; try (intros [r Hr]; discriminate Hr);
      try (intros [[? H1] [? H2]]; discriminate); eauto.
  - destruct (args !! "file_path") as [p|], (args !! "format") as [c|];
      split; try (intros [r Hr]; discriminate Hr);
      try (intros [[? H1] [? H2]]; discriminate); eauto.
  - intros ->. auto.
  - intros [p ->]. split; intros ->; reflexivity.
  - intros key value H1 H2 H3.
    rewrite !lookup_insert_ne by congruence. auto.
Qed.

(** ** The two demonstrations *)

Section DemoFacts.
Context {Message SdkError World : Type}.
Variable sdk : SDK Message SdkError World.

(** The log after an exchange that returned, seen through the two
    observations. *)
Lemma session_return_observed (options : ClaudeAgentOptions)
    (prompt : string) (st st' : State World) (result : list Message) :
  session sdk options prompt st = (st', Return result) ->
  sessions_opened (log st') = (sessions_opened (log st) ++ [options])%list
  /\ prompts_sent (log st') = (prompts_sent (log st) ++ [prompt])%list.
Proof.
  intros H%session_return. rewrite H, sessions_opened_app, prompts_sent_app.
  auto.
Qed.

End DemoFacts.

(** X16. When [solution4_external_orchestrator] runs to its end, its
    four tasks have reached the four profiles in turn: the sessions
    opened are the browser, the filesystem, the database and the general
    one, each sent its own task. *)
Theorem solution4_demo_reaches_every_profile
    (Message SdkError World : Type) (sdk : SDK Message SdkError World)
    (st : State World) :
  (solution4_external_orchestrator sdk st).2 = Return tt ->
  sessions_opened (log (solution4_external_orchestrator sdk st).1)
  = (sessions_opened (log st)
     ++ [AgentOrchestrator.browser_options;
         AgentOrchestrator.filesystem_options;
         AgentOrchestrator.database_options;
         AgentOrchestrator.general_options])%list
  /\ prompts_sent (log (solution4_external_orchestrator sdk st).1)
     = (prompts_sent (log st)
        ++ ["Scrape pricing data from competitors' websites";
            "List all markdown files in docs/";
            "Query database for user activity in last 30 days";
            "Explain the difference between async and sync functions"])%list.
Proof.
  unfold solution4_external_orchestrator,
    AgentOrchestrator.execute_multiple_tasks.
  cbn [AgentOrchestrator.for_each_task]. unfold bind, ret.
  rewrite execute_browser by (apply either_keyword; reflexivity).
  destruct (session sdk _ _ st) as [st1 [r1|e1]] eqn:E1;
    [|intros H; discriminate H].
  rewrite execute_filesystem
    by (first [apply neither_keyword | apply either_keyword]; reflexivity).
  destruct (session sdk _ _ st1) as [st2 [r2|e2]] eqn:E2;
    [|intros H; discriminate H].
  rewrite execute_database
    by (first [apply neither_keyword | apply either_keyword]; reflexivity).
  destruct (session sdk _ _ st2) as [st3 [r3|e3]] eqn:E3;
    [|intros H; discriminate H].
  rewrite execute_general by (apply neither_keyword; reflexivity).
  destruct (session sdk _ _ st3) as [st4 [r4|e4]] eqn:E4;
    [|intros H; discriminate H].
  intros _. simpl.
  apply session_return_observed in E1 as [S1 P1], E2 as [S2 P2],
    E3 as [S3 P3], E4 as [S4 P4].
  rewrite S4, S3, S2, S1, P4, P3, P2, P1, <- !app_assoc. auto.
Qed.

Lemma solution4_demo_reaches_every_profile_witness :
  sessions_opened
    (log (solution4_external_orchestrator Scripted.sdk
            (Scripted.start [])).1)
  = ([] ++ [AgentOrchestrator.browser_options;
            AgentOrchestrator.filesystem_options;
            AgentOrchestrator.database_options;
            AgentOrchestrator.general_options])%list
  /\ prompts_sent
       (log (solution4_external_orchestrator Scripted.sdk
               (Scripted.start [])).1)
     = ([] ++ ["Scrape pricing data from competitors' websites";
               "List all markdown files in docs/";
               "Query database for user activity in last 30 days";
               "Explain the difference between async and sync functions"])%list.
Proof.
  apply (solution4_demo_reaches_every_profile _ _ _ Scripted.sdk
           (Scripted.start [])).
  reflexivity.
Defined.

(** X17. When [solution1_query_level_isolation] runs to its end, only
    the second of its four tasks has been given an MCP server, the
    filesystem one: the first, third and fourth contain no keyword and
    run in the general session. *)
Theorem solution1_demo_uses_one_server
    (Message SdkError World : Type) (sdk : SDK Message SdkError World)
    (st : State World) :
  (solution1_query_level_isolation sdk st).2 = Return tt ->
  sessions_opened (log (solution1_query_level_isolation sdk st).1)
  = (sessions_opened (log st)
     ++ [Solution1.general_options; Solution1.filesystem_options;
         Solution1.general_options; Solution1.general_options])%list
  /\ prompts_sent (log (solution1_query_level_isolation sdk st).1)
     = (prompts_sent (log st)
        ++ ["Scrape product data from example.com";
            "List all Python files in src/";
            "Query users table for active accounts";
            "Explain what MCP servers are"])%list.
Proof.
  unfold solution1_query_level_isolation.
  cbn [route_each]. unfold bind, ret.
  rewrite (route_general sdk "Scrape product data from example.com")
    by (apply neither_keyword; reflexivity).
  destruct (session sdk _ _ st) as [st1 [r1|e1]] eqn:E1;
    [|intros H; discriminate H].
  rewrite route_filesystem
    by (first [apply neither_keyword | apply either_keyword]; reflexivity).
  destruct (session sdk _ _ st1) as [st2 [r2|e2]] eqn:E2;
    [|intros H; discriminate H].
  rewrite (route_general sdk "Query users table for active accounts")
    by (apply neither_keyword; reflexivity).
  destruct (session sdk _ _ st2) as [st3 [r3|e3]] eqn:E3;
    [|intros H; discriminate H].
  rewrite route_general by (apply neither_keyword; reflexivity).
  destruct (session sdk _ _ st3) as [st4 [r4|e4]] eqn:E4;
    [|intros H; discriminate H].
  intros _. simpl.
  apply session_return_observed in E1 as [S1 P1], E2 as [S2 P2],
    E3 as [S3 P3], E4 as [S4 P4].
  rewrite S4, S3, S2, S1, P4, P3, P2, P1, <- !app_assoc. auto.
Qed.

Lemma solution1_demo_uses_one_server_witness :
  sessions_opened
    (log (solution1_query_level_isolation Scripted.sdk
            (Scripted.start [])).1)
  = ([] ++ [Solution1.general_options; Solution1.filesystem_options;
            Solution1.general_options; Solution1.general_options])%list
  /\ prompts_sent
       (log (solution1_query_level_isolation Scripted.sdk
               (Scripted.start [])).1)
     = ([] ++ ["Scrape product data from example.com";
               "List all Python files in src/";
               "Query users table for active accounts";
               "Explain what MCP servers are"])%list.
Proof.
  apply (solution1_demo_uses_one_server _ _ _ Scripted.sdk
           (Scripted.start [])).
  reflexivity.
Defined.
